(** * MCP server for Gemini: request pipeline, validation, rate limiting, retry

    A shallow embedding of the TypeScript sources
      - [src/utils/errors.ts]      (error classes, [ErrorHandler], [withRetry]),
      - [src/utils/validation.ts]  ([CommonSchemas], [ToolSchemas], [Validator]),
      - [src/utils/rateLimiter.ts] ([RateLimiter]),
      - [src/enhanced-stdio-server.ts] (the line handler and the tool handlers),
    followed by the properties of the specification that concern them. *)

From Stdlib Require Import ZArith QArith Lia Ascii String.
From stdpp Require Import base option list strings pretty gmap.

Local Open Scope string_scope.
Local Open Scope list_scope.
Local Open Scope Z_scope.

(** ** JavaScript values

    Values that reach the server come out of [JSON.parse]; [undefined] (a
    missing property, a missing argument) is [None] of [option json].
    Numbers are rationals: every finite double is one, and the numeric tests
    of the sources ([=== 503], [min(0)], [|| 0.7]) only compare them.
    Strings are sequences of 8-bit characters.  An object is the list of its
    own members in insertion order, with distinct keys. *)

#[warnings="-register-all"]
Inductive json : Type :=
| JNull
| JBool (b : bool)
| JNum (q : Q)
| JStr (s : string)
| JArr (items : list json)
| JObj (members : list (string * json)).

Abbreviation jsval := (option json).
Abbreviation undefined := (@None json).

Module JS.

Fixpoint assoc (k : string) (members : list (string * json)) : jsval :=
  match members with
  | [] => undefined
  | (k', v) :: rest => if String.eqb k k' then Some v else assoc k rest
  end.

(** [v.k] on a value that has members; on a string, a number, a boolean or
    an array the names read by the sources ([jsonrpc], [method], [id],
    [status], [code], ...) are absent.  Inherited array members such as
    [filter] and [length] are not modelled. *)
Definition prop (v : json) (k : string) : jsval :=
  match v with
  | JObj members => assoc k members
  | _ => undefined
  end.

(** [v?.k]: also defined on [undefined] and [null]. *)
Definition optprop (v : jsval) (k : string) : jsval :=
  match v with
  | Some j => prop j k
  | None => undefined
  end.

Definition is_zero (q : Q) : bool := (Qnum q =? 0)%Z.

(** Truthiness: [undefined], [null], [false], [0] and [""] are falsy. *)
Definition truthy (v : jsval) : bool :=
  match v with
  | None => false
  | Some JNull => false
  | Some (JBool b) => b
  | Some (JNum q) => negb (is_zero q)
  | Some (JStr s) => negb (String.eqb s "")
  | Some (JArr _) => true
  | Some (JObj _) => true
  end.

(** [v === "s"] for a string literal. *)
Definition is_str (v : jsval) (s : string) : bool :=
  match v with
  | Some (JStr s') => String.eqb s' s
  | _ => false
  end.

(** [v === n] for a numeric literal. *)
Definition is_num (v : jsval) (n : Z) : bool :=
  match v with
  | Some (JNum q) => Qeq_bool q (inject_Z n)
  | _ => false
  end.

(** [v === undefined || v === null] *)
Definition nullish (v : jsval) : bool :=
  match v with
  | None | Some JNull => true
  | _ => false
  end.

(** [a || b] on optional numbers, as in [validatedArgs.temperature || 0.7]. *)
Definition num_or (a : option Q) (b : Q) : Q :=
  match a with
  | Some q => if is_zero q then b else q
  | None => b
  end.

(** [a || b] on optional strings. *)
Definition str_or (a : option string) (b : string) : string :=
  match a with
  | Some s => if String.eqb s "" then b else s
  | None => b
  end.

End JS.

(** ** Error classes ([src/utils/errors.ts]) *)

Inductive errorClass : Type :=
| CMCPError | CValidationError | CAuthenticationError
| CRateLimitError | CTimeoutError | CGeminiAPIError.

(** An instance of [MCPError] or of one of its subclasses.  For a
    [GeminiAPIError] the field [data] is also its [originalError]. *)
Record MCPError : Type := mkMCPError {
  name : errorClass;
  message : string;
  code : Z;
  data : jsval
}.

Definition newMCPError (msg : string) : MCPError :=
  mkMCPError CMCPError msg (-32603) undefined.
Definition ValidationError (msg : string) : MCPError :=
  mkMCPError CValidationError msg (-32602) undefined.
Definition AuthenticationError (msg : string) : MCPError :=
  mkMCPError CAuthenticationError msg (-32001) undefined.
Definition RateLimitError (msg : string) : MCPError :=
  mkMCPError CRateLimitError msg (-32002) undefined.
Definition TimeoutError (msg : string) : MCPError :=
  mkMCPError CTimeoutError msg (-32003) undefined.
Definition GeminiAPIError (msg : string) (originalError : jsval) : MCPError :=
  mkMCPError CGeminiAPIError msg (-32603) originalError.

Definition originalError (e : MCPError) : jsval := data e.

(** What a [throw] can carry. *)
Inductive thrown : Type :=
| ThrowMCP (e : MCPError)            (* instanceof MCPError *)
| ThrowError (msg : string)          (* any other instance of Error *)
| ThrowValue (v : jsval).            (* not an Error at all *)

(** [T] or an exception. *)
Abbreviation result T := (T + thrown)%type.
Abbreviation Ok := inl.
Abbreviation Throw := inr.

(** [error instanceof Error ? error.message : fallback] *)
Definition messageOr (fallback : string) (e : thrown) : string :=
  match e with
  | ThrowMCP m => message m
  | ThrowError msg => msg
  | ThrowValue _ => fallback
  end.

(** The wire form of a failure, [{code, message, data?}]. *)
Record rpcError : Type := mkRpcError {
  err_code : Z;
  err_message : string;
  err_data : jsval
}.

Module ErrorHandler.

Definition isRetryableError (error : thrown) : bool :=
  match error with
  | ThrowMCP e =>
      match name e with
      | CGeminiAPIError =>
          let status := JS.optprop (originalError e) "status" in
          JS.is_str status "UNAVAILABLE"
          || JS.is_str status "RESOURCE_EXHAUSTED"
          || JS.is_str status "INTERNAL"
          || JS.is_num (JS.optprop (originalError e) "code") 503
          || JS.is_num (JS.optprop (originalError e) "code") 429
      | _ => false
      end
  | _ => false
  end.

(** [Math.min(1000 * Math.pow(2, attempt), 16000)] *)
Definition getRetryDelay (attempt : nat) : Z :=
  Z.min (1000 * 2 ^ Z.of_nat attempt) 16000.



End ErrorHandler.

(** ** [withRetry]

    The operation is a closure that may answer differently each time it is
    called: [operation k] is the outcome of its invocation number [k]
    (counting from 0).  A run records the outcome, how many times the
    operation was invoked and the delays handed to [setTimeout], in order. *)

Record retryRun (T : Type) : Type := mkRetryRun {
  outcome : result T;
  invocations : nat;
  sleeps : list Z
}.
Arguments mkRetryRun {T}.
Arguments outcome {T}.
Arguments invocations {T}.
Arguments sleeps {T}.

Definition slept {T} (delay : Z) (r : retryRun T) : retryRun T :=
  mkRetryRun (outcome r) (invocations r) (delay :: sleeps r).

(** The [for] loop, entered with [attempt] and [remaining = maxAttempts -
    attempt] iterations to go. *)
Fixpoint retryLoop {T} (operation : nat -> result T) (maxAttempts : nat)
    (baseDelay : Z) (remaining attempt : nat) (lastError : thrown) : retryRun T :=
  match remaining with
  | O => mkRetryRun (Throw lastError) attempt []
  | S remaining' =>
      match operation attempt with
      | Ok v => mkRetryRun (Ok v) (S attempt) []
      | Throw error =>
          if (Z.of_nat attempt =? Z.of_nat maxAttempts - 1)
             || negb (ErrorHandler.isRetryableError error)
          then mkRetryRun (Throw error) (S attempt) []
          else
            let delay := baseDelay * 2 ^ Z.of_nat attempt in
            slept delay
              (retryLoop operation maxAttempts baseDelay remaining' (S attempt) error)
      end
  end.

Definition withRetry {T} (operation : nat -> result T) (maxAttempts : nat)
    (baseDelay : Z) : retryRun T :=
  retryLoop operation maxAttempts baseDelay maxAttempts 0 (ThrowValue undefined).

(** ** Validation ([src/utils/validation.ts])

    The schemas are built with the zod library.  Its behaviour is embedded as
    far as the sources rely on it: a parser either returns the parsed value
    or the list of its complaints; [optional] lets [undefined] through; an
    object schema checks every declared member, collects all issues in
    declaration order and drops undeclared members.  The messages are those
    of zod's default error map; the ones of an enum are abridged. *)

Record issue : Type := mkIssue { path : string; reason : string }.

Abbreviation parser T := (jsval -> T + list string)%type.

Module Zod.

Definition typeName (v : jsval) : string :=
  match v with
  | None => "undefined"
  | Some JNull => "null"
  | Some (JBool _) => "boolean"
  | Some (JNum _) => "number"
  | Some (JStr _) => "string"
  | Some (JArr _) => "array"
  | Some (JObj _) => "object"
  end.

Definition invalidType (expected : string) (v : jsval) : string :=
  match v with
  | None => "Required"
  | _ => "Expected " +:+ expected +:+ ", received " +:+ typeName v
  end.

(** [z.string()] followed by checks; each check that fails contributes its
    message. *)
Definition string_ (checks : list ((string -> bool) * string)) : parser string :=
  fun v =>
    match v with
    | Some (JStr s) =>
        match omap (fun '(ok, msg) => if ok s : bool then None else Some msg) checks with
        | [] => inl s
        | msgs => inr msgs
        end
    | _ => inr [invalidType "string" v]
    end.

(** [z.number().min(lo).max(hi)] *)
Definition number (lo hi : Z) : parser Q :=
  fun v =>
    match v with
    | Some (JNum q) =>
        if negb (Qle_bool (inject_Z lo) q)
        then inr ["Number must be greater than or equal to " +:+ pretty lo]
        else if negb (Qle_bool q (inject_Z hi))
        then inr ["Number must be less than or equal to " +:+ pretty hi]
        else inl q
    | _ => inr [invalidType "number" v]
    end.

Definition boolean : parser bool :=
  fun v =>
    match v with
    | Some (JBool b) => inl b
    | _ => inr [invalidType "boolean" v]
    end.

(** [z.enum([...])] *)
Definition enum (values : list string) : parser string :=
  fun v =>
    match v with
    | Some (JStr s) =>
        if existsb (String.eqb s) values then inl s
        else inr ["Invalid enum value"]
    | _ => inr [invalidType "enum" v]
    end.

(** [.optional()] *)
Definition optional {T} (p : parser T) : parser (option T) :=
  fun v =>
    match v with
    | None => inl None
    | Some _ => match p v with inl x => inl (Some x) | inr msgs => inr msgs end
    end.

Definition minLength (n : nat) (s : string) : bool := (n <=? String.length s)%nat.
Definition maxLength (n : nat) (s : string) : bool := (String.length s <=? n)%nat.

(** One member of an object schema: the parsed value if any, and the issues
    it raised, each at the member's path. *)
Definition member {T} (args : json) (key : string) (p : parser T) : option T * list issue :=
  match p (JS.prop args key) with
  | inl x => (Some x, [])
  | inr msgs => (None, map (mkIssue key) msgs)
  end.

End Zod.

Module CommonSchemas.

Definition geminiModel : parser string :=
  Zod.enum ["gemini-2.5-pro"; "gemini-2.5-flash"; "gemini-2.5-flash-lite";
            "gemini-2.0-flash"; "gemini-2.0-flash-lite";
            "gemini-2.0-pro-experimental"; "gemini-1.5-pro"; "gemini-1.5-flash"].

Definition temperature : parser Q := Zod.number 0 2.
Definition maxTokens : parser Q := Zod.number 1 8192.
Definition topK : parser Q := Zod.number 1 100.
Definition topP : parser Q := Zod.number 0 1.

Definition conversationId : parser string :=
  Zod.string_ [(Zod.minLength 1, "String must contain at least 1 character(s)");
               (Zod.maxLength 100, "String must contain at most 100 character(s)")].

Section Parse.
(** [JSON.parse]; [None] when it throws. *)
Variable JSON_parse : string -> option json.

Definition jsonSchema : parser string :=
  Zod.string_ [(fun val => bool_decide (is_Some (JSON_parse val)), "Must be valid JSON")].

Definition safetySettings : parser string :=
  Zod.string_ [(fun val => match JSON_parse val with
                           | Some (JArr _) => true
                           | _ => false
                           end, "Must be valid JSON array")].
End Parse.

End CommonSchemas.

(** The value [ToolSchemas.generateText] parses to. *)
Record generateTextArgs : Type := mkGenerateTextArgs {
  a_prompt : string;
  a_model : option string;
  a_systemInstruction : option string;
  a_temperature : option Q;
  a_maxTokens : option Q;
  a_topK : option Q;
  a_topP : option Q;
  a_jsonMode : option bool;
  a_jsonSchema : option string;
  a_grounding : option bool;
  a_safetySettings : option string;
  a_conversationId : option string
}.

Module ToolSchemas.
Section Parse.
Variable JSON_parse : string -> option json.

Definition generateText (params : jsval) : generateTextArgs + list issue :=
  match params with
  | Some (JObj members) =>
      let args := JObj members in
      let prompt := Zod.member args "prompt"
                      (Zod.string_ [(Zod.minLength 1, "Prompt is required")]) in
      let model := Zod.member args "model" (Zod.optional CommonSchemas.geminiModel) in
      let systemInstruction :=
        Zod.member args "systemInstruction" (Zod.optional (Zod.string_ [])) in
      let temperature :=
        Zod.member args "temperature" (Zod.optional CommonSchemas.temperature) in
      let maxTokens := Zod.member args "maxTokens" (Zod.optional CommonSchemas.maxTokens) in
      let topK := Zod.member args "topK" (Zod.optional CommonSchemas.topK) in
      let topP := Zod.member args "topP" (Zod.optional CommonSchemas.topP) in
      let jsonMode := Zod.member args "jsonMode" (Zod.optional Zod.boolean) in
      let jsonSchema :=
        Zod.member args "jsonSchema" (Zod.optional (CommonSchemas.jsonSchema JSON_parse)) in
      let grounding := Zod.member args "grounding" (Zod.optional Zod.boolean) in
      let safetySettings :=
        Zod.member args "safetySettings"
          (Zod.optional (CommonSchemas.safetySettings JSON_parse)) in
      let conversationId :=
        Zod.member args "conversationId" (Zod.optional CommonSchemas.conversationId) in
      let parsed :=
        p ← prompt.1; m ← model.1; si ← systemInstruction.1; t ← temperature.1;
        mt ← maxTokens.1; tk ← topK.1; tp ← topP.1; jm ← jsonMode.1;
        js ← jsonSchema.1; g ← grounding.1; ss ← safetySettings.1;
        c ← conversationId.1;
        Some (mkGenerateTextArgs p m si t mt tk tp jm js g ss c) in
      match parsed with
      | Some validated => inl validated
      | None =>
          inr (prompt.2 ++ model.2 ++ systemInstruction.2 ++ temperature.2
               ++ maxTokens.2 ++ topK.2 ++ topP.2 ++ jsonMode.2 ++ jsonSchema.2
               ++ grounding.2 ++ safetySettings.2 ++ conversationId.2)
      end
  | _ => inr [mkIssue "" (Zod.invalidType "object" params)]
  end.
End Parse.
End ToolSchemas.

Fixpoint join (sep : string) (l : list string) : string :=
  match l with
  | [] => ""
  | [x] => x
  | x :: rest => x +:+ sep +:+ join sep rest
  end.

(** The regular expression of [sanitizeString], a character class given by
    its ranges: [[\x00-\x08\x0B\x0C\x0E-\x1F\x7F]]. *)
Definition controlClass : list (N * N) :=
  [(0x00, 0x08); (0x0B, 0x0B); (0x0C, 0x0C); (0x0E, 0x1F); (0x7F, 0x7F)]%N.

Definition inClass (class : list (N * N)) (c : ascii) : bool :=
  existsb (fun '(lo, hi) => (lo <=? N_of_ascii c)%N && (N_of_ascii c <=? hi)%N) class.

(** [s.replace(/[class]/g, '')] *)
Fixpoint removeClass (class : list (N * N)) (s : string) : string :=
  match s with
  | EmptyString => EmptyString
  | String c rest =>
      if inClass class c then removeClass class rest
      else String c (removeClass class rest)
  end.

Module Validator.

Definition validateToolParams {T} (schema : jsval -> T + list issue)
    (params : jsval) : result T :=
  match schema params with
  | inl v => Ok v
  | inr issues =>
      let issues := join ", " (map (fun i => path i +:+ ": " +:+ reason i) issues) in
      Throw (ThrowMCP (ValidationError ("Invalid parameters: " +:+ issues)))
  end.

Definition sanitizeString (input : jsval) (maxLength : Z) : result string :=
  match input with
  | Some (JStr s) =>
      if Z.of_nat (String.length s) >? maxLength
      then Throw (ThrowMCP (ValidationError
             ("Input too long (max " +:+ pretty maxLength +:+ " characters)")))
      else Ok (removeClass controlClass s)
  | _ => Throw (ThrowMCP (ValidationError "Input must be a string"))
  end.

(** The default of [maxLength]. *)
Definition defaultMaxLength : Z := 10000.

Definition validateJSON (JSON_parse : string -> option json)
    (jsonString : string) : result json :=
  match JSON_parse jsonString with
  | Some v => Ok v
  | None => Throw (ThrowMCP (ValidationError "Invalid JSON format"))
  end.

(** [typeof request === 'object'] holds of objects, arrays and [null];
    [!request] holds of [null]. *)
Definition validateMCPRequest (request : jsval) : result unit :=
  match request with
  | Some (JObj _ as r) | Some (JArr _ as r) =>
      if negb (JS.is_str (JS.prop r "jsonrpc") "2.0")
      then Throw (ThrowMCP (ValidationError "Invalid JSON-RPC version"))
      else
        match JS.prop r "method" with
        | Some (JStr _) =>
            if JS.nullish (JS.prop r "id")
            then Throw (ThrowMCP (ValidationError "Request ID is required"))
            else Ok tt
        | _ => Throw (ThrowMCP (ValidationError "Method must be a string"))
        end
  | _ => Throw (ThrowMCP (ValidationError "Request must be an object"))
  end.

End Validator.

(** ** Configuration ([src/config/index.ts]): the values the limiter reads *)

Record Config : Type := mkConfig {
  rateLimitEnabled : bool;
  rateLimitRequests : Z;
  rateLimitWindow : Z
}.

(** ** Rate limiter ([src/utils/rateLimiter.ts])

    [Date.now()] is an input of every operation.  The entries live in a
    [Map]; [entry.count++] on an entry fetched from it is an update of the
    map. *)

Record RateLimitEntry : Type := mkEntry {
  count : Z;
  resetTime : Z
}.

Record RateLimiter : Type := mkRateLimiter {
  requests : gmap string RateLimitEntry;
  maxRequests : Z;
  windowMs : Z
}.

(** [Math.ceil(x / d)] for integers [x] and [d > 0]. *)
Definition ceilDiv (x d : Z) : Z := - ((- x) / d).

Module Limiter.

(** [new RateLimiter()] with the defaults taken from the configuration. *)
Definition create (config : Config) : RateLimiter :=
  mkRateLimiter ∅ (rateLimitRequests config) (rateLimitWindow config).

Definition withRequests (this : RateLimiter) (m : gmap string RateLimitEntry) : RateLimiter :=
  mkRateLimiter m (maxRequests this) (windowMs this).

Definition limitMessage (resetIn : Z) : string :=
  "Rate limit exceeded. Try again in " +:+ pretty resetIn +:+ " seconds.".

Definition checkLimit (config : Config) (now : Z) (identifier : string)
    (this : RateLimiter) : result unit * RateLimiter :=
  if negb (rateLimitEnabled config) then (Ok tt, this)
  else
    match requests this !! identifier with
    | None =>
        (Ok tt,
         withRequests this
           (<[identifier := mkEntry 1 (now + windowMs this)]> (requests this)))
    | Some entry =>
        if now >=? resetTime entry then
          (Ok tt,
           withRequests this
             (<[identifier := mkEntry 1 (now + windowMs this)]> (requests this)))
        else if count entry >=? maxRequests this then
          let resetIn := ceilDiv (resetTime entry - now) 1000 in
          (Throw (ThrowMCP (RateLimitError (limitMessage resetIn))), this)
        else
          (Ok tt,
           withRequests this
             (<[identifier := mkEntry (count entry + 1) (resetTime entry)]> (requests this)))
    end.

(** [{count, limit, resetTime}] *)
Definition getUsage (now : Z) (identifier : string) (this : RateLimiter) : Z * Z * Z :=
  match requests this !! identifier with
  | Some entry =>
      if now >=? resetTime entry then (0, maxRequests this, now + windowMs this)
      else (count entry, maxRequests this, resetTime entry)
  | None => (0, maxRequests this, now + windowMs this)
  end.

Definition cleanup (now : Z) (this : RateLimiter) : RateLimiter :=
  withRequests this (filter (λ kv, now < resetTime kv.2) (requests this)).

Definition reset (identifier : string) (this : RateLimiter) : RateLimiter :=
  withRequests this (delete identifier (requests this)).

Definition destroy (this : RateLimiter) : RateLimiter := withRequests this ∅.

End Limiter.

(** ** The server ([src/enhanced-stdio-server.ts]) *)

Record ModelInfo : Type := mkModelInfo {
  description : string;
  features : list string;
  contextWindow : Z;
  thinking : option bool          (* the member is absent from most entries *)
}.

(** The table, in the order [Object.entries] enumerates it. *)
Definition GEMINI_MODELS : list (string * ModelInfo) :=
  [ ("gemini-2.5-pro",
     mkModelInfo "Most capable thinking model, best for complex reasoning and coding"
       ["thinking"; "function_calling"; "json_mode"; "grounding"; "system_instructions"]
       2000000 (Some true));
    ("gemini-2.5-flash",
     mkModelInfo "Fast thinking model with best price/performance ratio"
       ["thinking"; "function_calling"; "json_mode"; "grounding"; "system_instructions"]
       1000000 (Some true));
    ("gemini-2.5-flash-lite",
     mkModelInfo "Ultra-fast, cost-efficient thinking model for high-throughput tasks"
       ["thinking"; "function_calling"; "json_mode"; "system_instructions"]
       1000000 (Some true));
    ("gemini-2.0-flash",
     mkModelInfo "Fast, efficient model with 1M context window"
       ["function_calling"; "json_mode"; "grounding"; "system_instructions"]
       1000000 None);
    ("gemini-2.0-flash-lite",
     mkModelInfo "Most cost-efficient model for simple tasks"
       ["function_calling"; "json_mode"; "system_instructions"]
       1000000 None);
    ("gemini-2.0-pro-experimental",
     mkModelInfo "Experimental model with 2M context, excellent for coding"
       ["function_calling"; "json_mode"; "grounding"; "system_instructions"]
       2000000 None);
    ("gemini-1.5-pro",
     mkModelInfo "Previous generation pro model"
       ["function_calling"; "json_mode"; "system_instructions"]
       2000000 None);
    ("gemini-1.5-flash",
     mkModelInfo "Previous generation fast model"
       ["function_calling"; "json_mode"; "system_instructions"]
       1000000 None) ].

(** [GEMINI_MODELS[model]] *)
Fixpoint modelInfoOf (table : list (string * ModelInfo)) (model : string) : option ModelInfo :=
  match table with
  | [] => None
  | (n, info) :: rest => if String.eqb model n then Some info else modelInfoOf rest model
  end.

(** [features.includes(f)] *)
Definition includes (l : list string) (f : string) : bool := existsb (String.eqb f) l.

Inductive Role : Type := RoleUser | RoleModel.

(** A message of a conversation, [{parts: [{text}, ...], role}]. *)
Record Content : Type := mkContent {
  parts : list string;
  role : Role
}.

Record GenerationConfig : Type := mkGenerationConfig {
  temperature : Q;
  maxOutputTokens : Q;
  topK : Q;
  topP : Q;
  responseMimeType : option string;
  responseSchema : jsval
}.

(** The request of [generateText] to [genAI.models.generateContent]. *)
Record GenerateRequest : Type := mkGenerateRequest {
  rq_model : string;
  rq_contents : list Content;
  rq_generationConfig : GenerationConfig;
  rq_systemInstruction : option string;
  rq_safetySettings : jsval;
  rq_googleSearch : bool           (* [tools: [{googleSearch: {}}]] is attached *)
}.

(** The image part built by [analyzeImage]: a note with the URL, or inline
    data cut out of the base64 argument. *)
Inductive ImagePart : Type :=
| ImageUrlNote (imageUrl : json)
| InlineData (imageBase64 : string).

(** The calls the server makes to the remote service. *)
Inductive ApiCall : Type :=
| GenerateContent (request : GenerateRequest)
| GenerateFromImage (model : json) (prompt : jsval) (image : ImagePart)
| CountTokens (model : json) (text : jsval)
| EmbedContent (model : json) (text : jsval).

(** What the service answers, with the members the server reads. *)
Record ApiReply : Type := mkApiReply {
  reply_text : option string;                (* [result.text] *)
  reply_totalTokenCount : jsval;             (* [result.usageMetadata?.totalTokenCount] *)
  reply_finishReasons : option (list jsval); (* [result.candidates], by finish reason *)
  reply_totalTokens : jsval;                 (* [result.totalTokens] *)
  reply_embedding : option (list Q)          (* [result.embeddings?.[0]?.values] *)
}.

(** The remote service as the handler of one request meets it. *)
Abbreviation Remote := (ApiCall -> result ApiReply)%type.

Inductive HelpText : Type :=
| HelpOverview | HelpTools | HelpModels | HelpParameters | HelpExamples
| HelpQuickStart | HelpUnknownTopic.

Inductive ResourceText : Type :=
| ResModels | ResCapabilities | ResUsage | ResParameters | ResExamples.

(** The [result] member of a success response. *)
Inductive Payload : Type :=
| PInitialize
| PTools
| PResources
| PPrompts
| PGenerated (text : string) (model : string) (tokensUsed : jsval)
    (candidatesCount : Z) (finishReason : jsval)
| PAnalyzed (text : string)
| PTokenCount (totalTokens : jsval) (model : json)
| PModels (modelList : list (string * ModelInfo)) (count : Z) (filter : json)
| PEmbedding (values : list Q) (model : json) (dimensions : Z)
| PHelp (text : HelpText)
| PResource (uri : string) (text : ResourceText).

Record MCPResponse : Type := mkResponse {
  id : jsval;
  body : Payload + rpcError
}.

Definition success (id : jsval) (p : Payload) : MCPResponse := mkResponse id (inl p).
Definition failure (id : jsval) (code : Z) (msg : string) : MCPResponse :=
  mkResponse id (inr (mkRpcError code msg undefined)).

(** [error.toMCPResponse(id)]; [data] is left out when it is falsy. *)
Definition toMCPResponse (e : MCPError) (id : jsval) : MCPResponse :=
  mkResponse id
    (inr (mkRpcError (code e) (message e)
            (if JS.truthy (data e) then data e else undefined))).

Module JSOps.

(** [a || b] where [b] is a literal. *)
Definition or (a : jsval) (b : json) : json :=
  match a with
  | Some j => if JS.truthy a then j else b
  | None => b
  end.

(** [v.k] where [v] may be [undefined] or [null]: a [TypeError] then. *)
Definition member (v : jsval) (k : string) : result jsval :=
  match v with
  | None | Some JNull => Throw (ThrowError "Cannot read properties of undefined")
  | Some j => Ok (JS.prop j k)
  end.

End JSOps.

(** A tool as [tools/list] advertises it. *)
Record ToolDescriptor : Type := mkTool {
  tool_name : string;
  tool_description : string;
  inputSchema : json
}.

Definition schemaProperty (type description : string) (more : list (string * json)) : json :=
  JObj ([("type", JStr type); ("description", JStr description)] ++ more).

Definition strings (l : list string) : json := JArr (map JStr l).

Definition getAvailableTools : list ToolDescriptor :=
  [ mkTool "generate_text" "Generate text using Google Gemini with advanced features"
      (JObj [("type", JStr "object");
             ("properties", JObj [
                ("prompt", schemaProperty "string" "The prompt to send to Gemini" []);
                ("model", schemaProperty "string" "Specific Gemini model to use"
                   [("enum", strings (map fst GEMINI_MODELS));
                    ("default", JStr "gemini-2.5-flash")]);
                ("systemInstruction",
                 schemaProperty "string" "System instruction to guide model behavior" []);
                ("temperature", schemaProperty "number" "Temperature for generation (0-2)"
                   [("default", JNum (7 # 10)); ("minimum", JNum (inject_Z 0));
                    ("maximum", JNum (inject_Z 2))]);
                ("maxTokens", schemaProperty "number" "Maximum tokens to generate"
                   [("default", JNum (inject_Z 2048))]);
                ("topK", schemaProperty "number" "Top-k sampling parameter"
                   [("default", JNum (inject_Z 40))]);
                ("topP", schemaProperty "number" "Top-p (nucleus) sampling parameter"
                   [("default", JNum (95 # 100))]);
                ("jsonMode", schemaProperty "boolean" "Enable JSON mode for structured output"
                   [("default", JBool false)]);
                ("jsonSchema",
                 schemaProperty "string"
                   "JSON schema as a string for structured output (when jsonMode is true)" []);
                ("grounding",
                 schemaProperty "boolean"
                   "Enable Google Search grounding for up-to-date information"
                   [("default", JBool false)]);
                ("safetySettings",
                 schemaProperty "string"
                   "Safety settings as JSON string for content filtering" []);
                ("conversationId",
                 schemaProperty "string" "ID for maintaining conversation context" [])]);
             ("required", strings ["prompt"])]);
    mkTool "analyze_image" "Analyze images using Gemini vision capabilities"
      (JObj [("type", JStr "object");
             ("properties", JObj [
                ("prompt", schemaProperty "string" "Question or instruction about the image" []);
                ("imageUrl", schemaProperty "string" "URL of the image to analyze" []);
                ("imageBase64",
                 schemaProperty "string" "Base64-encoded image data (alternative to URL)" []);
                ("model", schemaProperty "string" "Vision-capable Gemini model"
                   [("enum", strings ["gemini-2.5-pro"; "gemini-2.5-flash"; "gemini-2.0-flash"]);
                    ("default", JStr "gemini-2.5-flash")])]);
             ("required", strings ["prompt"])]);
    mkTool "count_tokens" "Count tokens for a given text with a specific model"
      (JObj [("type", JStr "object");
             ("properties", JObj [
                ("text", schemaProperty "string" "Text to count tokens for" []);
                ("model", schemaProperty "string" "Model to use for token counting"
                   [("enum", strings (map fst GEMINI_MODELS));
                    ("default", JStr "gemini-2.5-flash")])]);
             ("required", strings ["text"])]);
    mkTool "list_models" "List all available Gemini models and their capabilities"
      (JObj [("type", JStr "object");
             ("properties", JObj [
                ("filter", schemaProperty "string" "Filter models by capability"
                   [("enum", strings ["all"; "thinking"; "vision"; "grounding"; "json_mode"])])])]);
    mkTool "embed_text" "Generate embeddings for text using Gemini embedding models"
      (JObj [("type", JStr "object");
             ("properties", JObj [
                ("text", schemaProperty "string" "Text to generate embeddings for" []);
                ("model", schemaProperty "string" "Embedding model to use"
                   [("enum", strings ["text-embedding-004"; "text-multilingual-embedding-002"]);
                    ("default", JStr "text-embedding-004")])]);
             ("required", strings ["text"])]);
    mkTool "get_help" "Get help and usage information for the Gemini MCP server"
      (JObj [("type", JStr "object");
             ("properties", JObj [
                ("topic", schemaProperty "string" "Help topic to get information about"
                   [("enum", strings ["overview"; "tools"; "models"; "parameters";
                                      "examples"; "quick-start"]);
                    ("default", JStr "overview")])])]) ].

(** A resource as [resources/list] advertises it. *)
Record ResourceDescriptor : Type := mkResource {
  res_uri : string;
  res_name : string;
  res_description : string;
  res_mimeType : string
}.

Definition getAvailableResources : list ResourceDescriptor :=
  [ mkResource "gemini://models" "Available Gemini Models"
      "List of all available Gemini models and their capabilities" "application/json";
    mkResource "gemini://capabilities" "API Capabilities"
      "Detailed information about Gemini API capabilities" "text/markdown";
    mkResource "gemini://help/usage" "Usage Guide"
      "Complete guide on using all tools and features" "text/markdown";
    mkResource "gemini://help/parameters" "Parameters Reference"
      "Detailed documentation of all parameters" "text/markdown";
    mkResource "gemini://help/examples" "Examples"
      "Example usage patterns for common tasks" "text/markdown" ].

Record ServerState : Type := mkServerState {
  conversations : gmap string (list Content);
  limiter : RateLimiter
}.

(** What handling one request leaves behind: the responses written to the
    output stream, the conversation store and the remote calls made. *)
Record Handled : Type := mkHandled {
  written : list MCPResponse;
  store : gmap string (list Content);
  calls : list ApiCall
}.

Module Server.
Section Runtime.

(** [JSON.parse] ([None] when it throws) and the conversion of a value
    to text inside a template literal. *)
Variable JSON_parse : string -> option json.
Variable toString : jsval -> string.

Definition defaultModel : string := "gemini-2.5-flash".
Definition defaultTemperature : Q := 7 # 10.
Definition defaultMaxOutputTokens : Q := inject_Z 2048.
Definition defaultTopK : Q := inject_Z 40.
Definition defaultTopP : Q := 95 # 100.

(** [args.conversationId] when it is truthy; validation has made it a
    string by then. *)
Definition conversationKey (args : jsval) : option string :=
  match JS.optprop args "conversationId" with
  | Some (JStr s) => if String.eqb s "" then None else Some s
  | _ => None
  end.

(** [this.conversations.get(id) || []] *)
Definition historyOf (conversations : gmap string (list Content)) (cid : string)
    : list Content :=
  default [] (conversations !! cid).

(** "Add JSON mode if requested" *)
Definition withJsonMode (validatedArgs : generateTextArgs)
    (generationConfig : GenerationConfig) : result GenerationConfig :=
  match a_jsonMode validatedArgs with
  | Some true =>
      let withMime schema :=
        mkGenerationConfig (temperature generationConfig)
          (maxOutputTokens generationConfig) (topK generationConfig)
          (topP generationConfig) (Some "application/json") schema in
      match a_jsonSchema validatedArgs with
      | Some s =>
          if String.eqb s "" then Ok (withMime undefined)
          else
            match Validator.validateJSON JSON_parse s with
            | Ok schema => Ok (withMime (Some schema))
            | Throw _ => Throw (ThrowMCP (ValidationError "Invalid JSON schema format"))
            end
      | None => Ok (withMime undefined)
      end
  | _ => Ok generationConfig
  end.

(** "Add system instruction if provided" *)
Definition systemInstructionOf (validatedArgs : generateTextArgs)
    : result (option string) :=
  match a_systemInstruction validatedArgs with
  | Some s =>
      if String.eqb s "" then Ok None
      else
        match Validator.sanitizeString (Some (JStr s)) Validator.defaultMaxLength with
        | Ok text => Ok (Some text)
        | Throw e => Throw e
        end
  | None => Ok None
  end.

(** "Add safety settings if provided"; a string that does not parse
    leaves the member unset. *)
Definition safetySettingsOf (args : jsval) : jsval :=
  let given := JS.optprop args "safetySettings" in
  if JS.truthy given then
    match given with
    | Some (JStr s) => JSON_parse s
    | _ => given
    end
  else undefined.

(** [generateText] between the validation of its parameters and the remote
    call: the request it builds, or what was thrown on the way. *)
Definition buildRequest (conversations : gmap string (list Content))
    (args : jsval) (validatedArgs : generateTextArgs) : result GenerateRequest :=
  let model := JS.str_or (a_model validatedArgs) defaultModel in
  match modelInfoOf GEMINI_MODELS model with
  | None => Throw (ThrowError ("Unknown model: " +:+ model))
  | Some modelInfo =>
      let generationConfig :=
        mkGenerationConfig
          (JS.num_or (a_temperature validatedArgs) defaultTemperature)
          (JS.num_or (a_maxTokens validatedArgs) defaultMaxOutputTokens)
          (JS.num_or (a_topK validatedArgs) defaultTopK)
          (JS.num_or (a_topP validatedArgs) defaultTopP)
          None undefined in
      match withJsonMode validatedArgs generationConfig with
      | Throw e => Throw e
      | Ok generationConfig =>
          match Validator.sanitizeString (Some (JStr (a_prompt validatedArgs)))
                  Validator.defaultMaxLength with
          | Throw e => Throw e
          | Ok promptText =>
              let contents := [mkContent [promptText] RoleUser] in
              match systemInstructionOf validatedArgs with
              | Throw e => Throw e
              | Ok systemInstruction =>
                  let safetySettings := safetySettingsOf args in
                  let googleSearch :=
                    JS.truthy (JS.optprop args "grounding")
                    && includes (features modelInfo) "grounding" in
                  let contents :=
                    match conversationKey args with
                    | Some cid =>
                        let history := historyOf conversations cid in
                        if (0 <? length history)%nat
                        then history ++ contents
                        else contents
                    | None => contents
                    end in
                  Ok (mkGenerateRequest model contents generationConfig
                        systemInstruction safetySettings googleSearch)
              end
          end
      end
  end.

(** [generateText] up to the remote call. *)
Definition prepareGenerate (conversations : gmap string (list Content))
    (args : jsval) : result GenerateRequest :=
  match Validator.validateToolParams (ToolSchemas.generateText JSON_parse) args with
  | Throw e => Throw e
  | Ok validatedArgs => buildRequest conversations args validatedArgs
  end.

(** [result.candidates?.length || 1] *)
Definition candidatesCount (reply : ApiReply) : Z :=
  match reply_finishReasons reply with
  | Some (_ :: _ as l) => Z.of_nat (length l)
  | _ => 1
  end.

(** [result.candidates?.[0]?.finishReason] *)
Definition finishReason (reply : ApiReply) : jsval :=
  match reply_finishReasons reply with
  | Some (r :: _) => r
  | _ => undefined
  end.

Definition generateText (api : Remote) (conversations : gmap string (list Content))
    (id : jsval) (args : jsval) : Handled :=
  let caught e calls :=
    mkHandled [failure id (-32603) (messageOr "Internal error" e)] conversations calls in
  match prepareGenerate conversations args with
  | Throw e => caught e []
  | Ok requestBody =>
      match api (GenerateContent requestBody) with
      | Throw e => caught e [GenerateContent requestBody]
      | Ok reply =>
          let text := JS.str_or (reply_text reply) "" in
          let conversations :=
            match conversationKey args with
            | Some cid =>
                let history := historyOf conversations cid in
                <[cid := history ++ rq_contents requestBody ++ [mkContent [text] RoleModel]]>
                  conversations
            | None => conversations
            end in
          mkHandled
            [success id (PGenerated text (rq_model requestBody)
                           (reply_totalTokenCount reply) (candidatesCount reply)
                           (finishReason reply))]
            conversations [GenerateContent requestBody]
      end
  end.

Definition listModels (id : jsval) (args : jsval) : MCPResponse :=
  let filter := JSOps.or (JS.optprop args "filter") (JStr "all") in
  let keep (entry : string * ModelInfo) : bool :=
    let info := entry.2 in
    if JS.is_str (Some filter) "thinking" then bool_decide (thinking info = Some true)
    else if JS.is_str (Some filter) "vision" then includes (features info) "function_calling"
    else if JS.is_str (Some filter) "grounding" then includes (features info) "grounding"
    else if JS.is_str (Some filter) "json_mode" then includes (features info) "json_mode"
    else true in
  let models :=
    if negb (JS.is_str (Some filter) "all")
    then List.filter keep GEMINI_MODELS
    else GEMINI_MODELS in
  let modelList := models in
  success id (PModels modelList (Z.of_nat (length modelList)) filter).

Definition analyzeImage (api : Remote) (id : jsval) (args : jsval) : MCPResponse * list ApiCall :=
  let caught e calls :=
    (failure id (-32603) ("Image analysis failed: " +:+ messageOr "Unknown error" e), calls) in
  match JSOps.member args "model" with
  | Throw e => caught e []
  | Ok given =>
      let model := JSOps.or given (JStr defaultModel) in
      let imageUrl := JS.optprop args "imageUrl" in
      let imageBase64 := JS.optprop args "imageBase64" in
      if negb (JS.truthy imageUrl) && negb (JS.truthy imageBase64)
      then caught (ThrowError "Either imageUrl or imageBase64 must be provided") []
      else
        let imagePart : result ImagePart :=
          if JS.truthy imageUrl then Ok (ImageUrlNote (JSOps.or imageUrl JNull))
          else
            match imageBase64 with
            | Some (JStr s) => Ok (InlineData s)
            | _ => Throw (ThrowError "args.imageBase64.match is not a function")
            end in
        match imagePart with
        | Throw e => caught e []
        | Ok imagePart =>
            let call := GenerateFromImage model (JS.optprop args "prompt") imagePart in
            match api call with
            | Throw e => caught e [call]
            | Ok reply => (success id (PAnalyzed (JS.str_or (reply_text reply) "")), [call])
            end
        end
  end.

Definition countTokens (api : Remote) (id : jsval) (args : jsval) : MCPResponse * list ApiCall :=
  let caught e calls := (failure id (-32603) (messageOr "Internal error" e), calls) in
  match JSOps.member args "model" with
  | Throw e => caught e []
  | Ok given =>
      let model := JSOps.or given (JStr defaultModel) in
      let call := CountTokens model (JS.optprop args "text") in
      match api call with
      | Throw e => caught e [call]
      | Ok reply => (success id (PTokenCount (reply_totalTokens reply) model), [call])
      end
  end.

Definition embedText (api : Remote) (id : jsval) (args : jsval) : MCPResponse * list ApiCall :=
  let caught e calls := (failure id (-32603) (messageOr "Internal error" e), calls) in
  match JSOps.member args "model" with
  | Throw e => caught e []
  | Ok given =>
      let model := JSOps.or given (JStr "text-embedding-004") in
      let call := EmbedContent model (JS.optprop args "text") in
      match api call with
      | Throw e => caught e [call]
      | Ok reply =>
          let values := default [] (reply_embedding reply) in
          (success id (PEmbedding values model (Z.of_nat (length values))), [call])
      end
  end.

Definition getHelp (id : jsval) (args : jsval) : MCPResponse :=
  let topic := Some (JSOps.or (JS.optprop args "topic") (JStr "overview")) in
  let helpContent :=
    if JS.is_str topic "overview" then HelpOverview
    else if JS.is_str topic "tools" then HelpTools
    else if JS.is_str topic "models" then HelpModels
    else if JS.is_str topic "parameters" then HelpParameters
    else if JS.is_str topic "examples" then HelpExamples
    else if JS.is_str topic "quick-start" then HelpQuickStart
    else HelpUnknownTopic in
  success id (PHelp helpContent).

Definition handleToolCall (api : Remote) (conversations : gmap string (list Content))
    (request : json) : Handled :=
  let id := JS.prop request "id" in
  let params := Some (JSOps.or (JS.prop request "params") (JObj [])) in
  let name := JS.optprop params "name" in
  let args := JS.optprop params "arguments" in
  let stateless (r : MCPResponse * list ApiCall) := mkHandled [r.1] conversations r.2 in
  if JS.is_str name "generate_text" then generateText api conversations id args
  else if JS.is_str name "analyze_image" then stateless (analyzeImage api id args)
  else if JS.is_str name "count_tokens" then stateless (countTokens api id args)
  else if JS.is_str name "list_models" then stateless (listModels id args, [])
  else if JS.is_str name "embed_text" then stateless (embedText api id args)
  else if JS.is_str name "get_help" then stateless (getHelp id args, [])
  else stateless (failure id (-32601) ("Unknown tool: " +:+ toString name), []).

Definition handleResourceRead (request : json) : MCPResponse :=
  let id := JS.prop request "id" in
  let uri := JS.optprop (JS.prop request "params") "uri" in
  if negb (JS.truthy uri) then failure id (-32602) "Missing required parameter: uri"
  else
    let found text := success id (PResource (toString uri) text) in
    if JS.is_str uri "gemini://models" then found ResModels
    else if JS.is_str uri "gemini://capabilities" then found ResCapabilities
    else if JS.is_str uri "gemini://help/usage" then found ResUsage
    else if JS.is_str uri "gemini://help/parameters" then found ResParameters
    else if JS.is_str uri "gemini://help/examples" then found ResExamples
    else failure id (-32602) ("Unknown resource: " +:+ toString uri).

(** The [switch] of [handleRequest] followed by [sendResponse]; a request
    of unknown method that has no [id] member is a notification and is
    dropped. *)
Definition route (api : Remote) (conversations : gmap string (list Content))
    (request : json) : Handled :=
  let id := JS.prop request "id" in
  let method := JS.prop request "method" in
  let reply r := mkHandled [r] conversations [] in
  if JS.is_str method "initialize" then reply (success id PInitialize)
  else if JS.is_str method "tools/list" then reply (success id PTools)
  else if JS.is_str method "tools/call" then handleToolCall api conversations request
  else if JS.is_str method "resources/list" then reply (success id PResources)
  else if JS.is_str method "resources/read" then reply (handleResourceRead request)
  else if JS.is_str method "prompts/list" then reply (success id PPrompts)
  else if negb (bool_decide (is_Some id)) then mkHandled [] conversations []
  else reply (failure id (-32601) "Method not found").

(** No handler above lets an exception escape, so the [catch] of
    [handleRequest] (an internal error with code -32603) has nothing to
    catch and [handleRequest] is its [switch]. *)
Definition handleRequest := route.

(** The [catch] of the line handler: a response only if the parsed
    line has a truthy [id]. *)
Definition errorReply (error : thrown) (partialRequest : json) : list MCPResponse :=
  let id := JS.prop partialRequest "id" in
  if JS.truthy id then
    match error with
    | ThrowMCP e => [toMCPResponse e id]
    | _ => [toMCPResponse (newMCPError "Invalid request format") id]
    end
  else [].

(** The ['line'] handler of [setupStdioInterface], run on the result of
    [JSON.parse(line)] ([None] for a blank line and for a line that does
    not parse: neither writes anything) at clock reading [now], with the
    remote service answering as [api].  A request is followed here until
    its response is written. *)
Definition onLine (config : Config) (now : Z) (api : Remote) (this : ServerState)
    (parsed : option json) : ServerState * list MCPResponse * list ApiCall :=
  match parsed with
  | None => (this, [], [])
  | Some request =>
      match Validator.validateMCPRequest (Some request) with
      | Throw error => (this, errorReply error request, [])
      | Ok _ =>
          let checked := Limiter.checkLimit config now "default" (limiter this) in
          match checked.1 with
          | Throw error =>
              (mkServerState (conversations this) checked.2,
               errorReply error request, [])
          | Ok _ =>
              let handled := handleRequest api (conversations this) request in
              (mkServerState (store handled) checked.2,
               written handled, calls handled)
          end
      end
  end.

End Runtime.
End Server.

(** * Vocabulary of the properties

    Predicates and sample values written from the wording of the
    specification, against which the embedded code is compared. *)

(** The claim's reading of a retryable failure: a [GeminiAPIError] whose
    original error has one of the three statuses or one of the two codes. *)
Definition retryableCause (error : thrown) : Prop :=
  exists e, error = ThrowMCP e /\ name e = CGeminiAPIError /\
    (JS.optprop (originalError e) "status" = Some (JStr "UNAVAILABLE")
     \/ JS.optprop (originalError e) "status" = Some (JStr "RESOURCE_EXHAUSTED")
     \/ JS.optprop (originalError e) "status" = Some (JStr "INTERNAL")
     \/ (exists q, JS.optprop (originalError e) "code" = Some (JNum q) /\ (q == 429)%Q)
     \/ (exists q, JS.optprop (originalError e) "code" = Some (JNum q) /\ (q == 503)%Q)).

(** The retryable error of the unit tests. *)
Definition unavailable : thrown :=
  ThrowMCP (GeminiAPIError "Error" (Some (JObj [("status", JStr "UNAVAILABLE")]))).

(** The characters the specification says [sanitizeString] strips:
    0x00-0x08, 0x0B, 0x0C, 0x0E-0x1F and 0x7F. *)
Definition strippedBySpec (c : ascii) : bool :=
  let n := N_of_ascii c in
  ((n <=? 8) || (n =? 11) || (n =? 12) || ((14 <=? n) && (n <=? 31)) || (n =? 127))%N.

(** ["a\x00b\x01c"] *)
Definition dirtySample : string :=
  String "a" (String "000" (String "b" (String "001" (String "c" EmptyString)))).

(** An envelope as the specification words it: an object whose [jsonrpc] is
    "2.0", whose [method] is a non-empty string and whose [id] is neither
    [undefined] nor [null]. *)
Definition envelopeAsSpecified (request : jsval) : bool :=
  match request with
  | Some (JObj members) =>
      JS.is_str (JS.assoc "jsonrpc" members) "2.0"
      && match JS.assoc "method" members with
         | Some (JStr m) => negb (String.eqb m "")
         | _ => false
         end
      && negb (JS.nullish (JS.assoc "id" members))
  | _ => false
  end.

(** The same with [method] any string, the empty one included. *)
Definition envelopeWithStringMethod (request : jsval) : bool :=
  match request with
  | Some (JObj members) =>
      JS.is_str (JS.assoc "jsonrpc" members) "2.0"
      && match JS.assoc "method" members with
         | Some (JStr _) => true
         | _ => false
         end
      && negb (JS.nullish (JS.assoc "id" members))
  | _ => false
  end.

(** Successive [checkLimit] calls for one key, at the given clock readings:
    their results in order, and the limiter afterwards. *)
Fixpoint checkAll (config : Config) (identifier : string) (times : list Z)
    (this : RateLimiter) : list (result unit) * RateLimiter :=
  match times with
  | [] => ([], this)
  | now :: rest =>
      let step := Limiter.checkLimit config now identifier this in
      let more := checkAll config identifier rest step.2 in
      (step.1 :: more.1, more.2)
  end.

(** A call at [now] opens a window for the key: there is no entry yet, or
    the entry's window has reached its reset time. *)
Definition opensWindow (this : RateLimiter) (identifier : string) (now : Z) : Prop :=
  match requests this !! identifier with
  | None => True
  | Some entry => resetTime entry <= now
  end.

(** The filter values [list_models] declares. *)
Definition declaredFilters : list string :=
  ["all"; "thinking"; "vision"; "grounding"; "json_mode"].

Definition isDeclaredFilter (v : jsval) : bool :=
  match v with
  | Some (JStr s) => existsb (String.eqb s) declaredFilters
  | _ => false
  end.

(** The members of an object without the one called [k]: the arguments of a
    call that omits the parameter. *)
Definition withoutMember (k : string) (members : list (string * json))
    : list (string * json) :=
  List.filter (fun kv => negb (String.eqb k kv.1)) members.

(** Validated parameters with the temperature, or [topP], replaced. *)
Definition setTemperature (t : option Q) (v : generateTextArgs) : generateTextArgs :=
  mkGenerateTextArgs (a_prompt v) (a_model v) (a_systemInstruction v) t (a_maxTokens v)
    (a_topK v) (a_topP v) (a_jsonMode v) (a_jsonSchema v) (a_grounding v)
    (a_safetySettings v) (a_conversationId v).

Definition setTopP (t : option Q) (v : generateTextArgs) : generateTextArgs :=
  mkGenerateTextArgs (a_prompt v) (a_model v) (a_systemInstruction v) (a_temperature v)
    (a_maxTokens v) (a_topK v) t (a_jsonMode v) (a_jsonSchema v) (a_grounding v)
    (a_safetySettings v) (a_conversationId v).

(** Sample requests and replies. *)
Definition envelope (id : json) (method : string) (params : list (string * json)) : json :=
  JObj [("jsonrpc", JStr "2.0"); ("id", id); ("method", JStr method);
        ("params", JObj params)].

Definition toolCall (id : json) (tool : string) (arguments : list (string * json)) : json :=
  envelope id "tools/call" [("name", JStr tool); ("arguments", JObj arguments)].

Definition replying (text : string) : Remote :=
  fun _ => Ok (mkApiReply (Some text) undefined None undefined None).


(** The sum of the delays of a run. *)
Definition totalDelay (delays : list Z) : Z := foldr Z.add 0 delays.



(** The administrative life of a limiter: checks, sweeps, resets and the
    final [destroy], in any order. *)
Inductive limiterOp : Type :=
| OpCheck (now : Z) (identifier : string)
| OpCleanup (now : Z)
| OpReset (identifier : string)
| OpDestroy.

Definition applyOp (config : Config) (this : RateLimiter) (op : limiterOp) : RateLimiter :=
  match op with
  | OpCheck now identifier => (Limiter.checkLimit config now identifier this).2
  | OpCleanup now => Limiter.cleanup now this
  | OpReset identifier => Limiter.reset identifier this
  | OpDestroy => Limiter.destroy this
  end.

Definition runOps (config : Config) (ops : list limiterOp) (this : RateLimiter)
    : RateLimiter :=
  foldl (applyOp config) this ops.

(** The code of a failure response. *)
Definition errorCode (r : MCPResponse) : option Z :=
  match body r with
  | inr e => Some (err_code e)
  | inl _ => None
  end.

(** What the advertised input schema of a tool says about a parameter. *)
Definition advertised (tool param facet : string) : jsval :=
  match List.find (fun t => String.eqb (tool_name t) tool) getAvailableTools with
  | Some t =>
      JS.optprop (JS.optprop (JS.prop (inputSchema t) "properties") param) facet
  | None => undefined
  end.

Definition advertisedEnum (tool param : string) : list string :=
  match advertised tool param "enum" with
  | Some (JArr items) =>
      omap (fun j => match j with JStr s => Some s | _ => None end) items
  | _ => []
  end.

(** Every entry counts at least one request and at most the limit (or one,
    if the limit is below one). *)
Definition countsWithinLimit (this : RateLimiter) : Prop :=
  forall identifier entry,
    requests this !! identifier = Some entry ->
    1 <= count entry <= Z.max 1 (maxRequests this).

(** A response is a success or a failure with the code of an internal
    error. *)
Definition internalOrSuccess (r : MCPResponse) : Prop :=
  errorCode r = None \/ errorCode r = Some (-32603).

(** The tool name [handleToolCall] reads from a request. *)
Definition toolNameOf (request : json) : jsval :=
  JS.optprop (Some (JSOps.or (JS.prop request "params") (JObj []))) "name".

(** * Properties *)

(** ** Retry policy *)

Section RetryFacts.

Lemma getRetryDelay_table :
  map ErrorHandler.getRetryDelay [0; 1; 2; 3; 4; 10]%nat
  = [1000; 2000; 4000; 8000; 16000; 16000].
Proof. reflexivity. Qed.

Lemma getRetryDelay_ceiling (n : nat) :
  (4 <= n)%nat -> ErrorHandler.getRetryDelay n = 16000.
Proof.
  intros Hn. unfold ErrorHandler.getRetryDelay.
  assert (2 ^ 4 <= 2 ^ Z.of_nat n) by (apply Z.pow_le_mono_r; lia).
  lia.
Qed.

Lemma getRetryDelay_below_ceiling (n : nat) :
  (n <= 4)%nat -> ErrorHandler.getRetryDelay n = 1000 * 2 ^ Z.of_nat n.
Proof.
  intros Hn. unfold ErrorHandler.getRetryDelay.
  assert (2 ^ Z.of_nat n <= 2 ^ 4) by (apply Z.pow_le_mono_r; lia).
  lia.
Qed.

Context {T : Type}.
Implicit Types (operation : nat -> result T) (error : thrown).

Lemma is_str_true (v : jsval) (s : string) :
  JS.is_str v s = true <-> v = Some (JStr s).
Proof.
  unfold JS.is_str. destruct v as [[]|]; try (split; [discriminate | congruence]).
  rewrite String.eqb_eq. split; congruence.
Qed.

Lemma is_num_true (v : jsval) (n : Z) :
  JS.is_num v n = true <-> exists q, v = Some (JNum q) /\ (q == inject_Z n)%Q.
Proof.
  unfold JS.is_num. destruct v as [[]|];
    try (split; [discriminate | intros (q' & Hq & _); congruence]).
  rewrite Qeq_bool_iff. split.
  - eauto.
  - intros (q' & Hq & Heq). congruence.
Qed.

Lemma isRetryableError_spec error :
  ErrorHandler.isRetryableError error = true <-> retryableCause error.
Proof.
  unfold ErrorHandler.isRetryableError, retryableCause.
  destruct error as [e | |].
  2,3: split; [discriminate | intros (e' & ? & _); discriminate].
  destruct (name e) eqn:Hname.
  1-5: split; [discriminate | intros (e' & [= <-] & ? & _); congruence].
  rewrite !orb_true_iff, !is_str_true, !is_num_true. split.
  - intros H. exists e. split; [done|]. split; [done|]. tauto.
  - intros (e' & [= <-] & _ & H). tauto.
Qed.

(** One step of the loop on a failure that is retried. *)
Lemma retryLoop_retry operation maxAttempts baseDelay remaining attempt last error :
  operation attempt = Throw error ->
  ErrorHandler.isRetryableError error = true ->
  (S attempt < maxAttempts)%nat ->
  retryLoop operation maxAttempts baseDelay (S remaining) attempt last
  = slept (baseDelay * 2 ^ Z.of_nat attempt)
      (retryLoop operation maxAttempts baseDelay remaining (S attempt) error).
Proof.
  intros Hop Hre Hlt. cbn [retryLoop]. rewrite Hop, Hre.
  destruct (Z.eqb_spec (Z.of_nat attempt) (Z.of_nat maxAttempts - 1)); [lia|].
  reflexivity.
Qed.

(** One step of the loop on a failure that is not retried. *)
Lemma retryLoop_fatal operation maxAttempts baseDelay remaining attempt last error :
  operation attempt = Throw error ->
  ErrorHandler.isRetryableError error = false ->
  retryLoop operation maxAttempts baseDelay (S remaining) attempt last
  = mkRetryRun (Throw error) (S attempt) [].
Proof.
  intros Hop Hre. cbn [retryLoop]. rewrite Hop, Hre, orb_true_r. reflexivity.
Qed.

Lemma retryLoop_success operation maxAttempts baseDelay remaining attempt last v :
  operation attempt = Ok v ->
  retryLoop operation maxAttempts baseDelay (S remaining) attempt last
  = mkRetryRun (Ok v) (S attempt) [].
Proof. intros Hop. cbn [retryLoop]. rewrite Hop. reflexivity. Qed.

(** An operation that keeps failing with retryable errors is tried
    [maxAttempts] times, and the loop sleeps [baseDelay * 2^k] after each
    attempt [k] but the last: nothing caps the delay. *)
Lemma retryLoop_sleeps operation maxAttempts baseDelay remaining attempt last :
  (forall k, exists error,
      operation k = Throw error /\ ErrorHandler.isRetryableError error = true) ->
  (attempt + remaining = maxAttempts)%nat ->
  sleeps (retryLoop operation maxAttempts baseDelay remaining attempt last)
  = map (fun k => baseDelay * 2 ^ Z.of_nat k) (seq attempt (remaining - 1)).
Proof.
  intros Hop. revert attempt last.
  induction remaining as [|remaining IH]; intros attempt last Hsum; [reflexivity|].
  destruct (Hop attempt) as (error & Hthrow & Hre).
  destruct remaining as [|remaining].
  - cbn [retryLoop]. rewrite Hthrow.
    destruct (Z.eqb_spec (Z.of_nat attempt) (Z.of_nat maxAttempts - 1)); [|lia].
    reflexivity.
  - rewrite (retryLoop_retry _ _ _ _ _ _ error) by (done || lia).
    cbn [slept sleeps]. rewrite IH by lia.
    replace (S (S remaining) - 1)%nat with (S remaining) by lia.
    replace (S remaining - 1)%nat with remaining by lia.
    reflexivity.
Qed.

End RetryFacts.

(** C3 (defect of the code).  With [baseDelay = 1000] and seven attempts, an
    operation that keeps failing with a retryable error makes [withRetry]
    sleep 1000, 2000, 4000, 8000, 16000 and then 32000 ms: after attempt 5
    the loop waits 32000 ms, whereas [ErrorHandler.getRetryDelay 5] is the
    ceiling, 16000 ms.  The loop computes [baseDelay * 2^attempt] and never
    applies the ceiling of the delay calculator. *)
Theorem C3_retry_loop_exceeds_ceiling :
  let run := withRetry (T := unit) (fun _ => Throw unavailable) 7 1000 in
  sleeps run = [1000; 2000; 4000; 8000; 16000; 32000]
  /\ invocations run = 7%nat
  /\ sleeps run !! 5%nat = Some 32000
  /\ ErrorHandler.getRetryDelay 5 = 16000
  /\ take 5 (sleeps run) = map ErrorHandler.getRetryDelay [0; 1; 2; 3; 4]%nat.
Proof. repeat split; reflexivity. Qed.

(** C6.  With [maxAttempts = 3], an operation whose first two invocations
    fail with retryable errors and whose third succeeds is invoked exactly
    three times and [withRetry] returns the third invocation's value; an
    operation whose first invocation fails with an error that is not
    retryable is invoked exactly once and [withRetry] throws that very
    error. *)
Theorem C6_withRetry_three_attempts {T} (operation : nat -> result T) (baseDelay : Z) :
  (forall e0 e1 v,
      operation 0%nat = Throw e0 -> retryableCause e0 ->
      operation 1%nat = Throw e1 -> retryableCause e1 ->
      operation 2%nat = Ok v ->
      outcome (withRetry operation 3 baseDelay) = Ok v
      /\ invocations (withRetry operation 3 baseDelay) = 3%nat)
  /\ (forall e,
      operation 0%nat = Throw e -> ~ retryableCause e ->
      outcome (withRetry operation 3 baseDelay) = Throw e
      /\ invocations (withRetry operation 3 baseDelay) = 1%nat).
Proof.
  split.
  - intros e0 e1 v H0 R0 H1 R1 H2.
    apply isRetryableError_spec in R0, R1.
    unfold withRetry.
    rewrite (retryLoop_retry _ _ _ _ _ _ e0) by (done || lia).
    rewrite (retryLoop_retry _ _ _ _ _ _ e1) by (done || lia).
    rewrite (retryLoop_success _ _ _ _ _ _ v) by done.
    split; reflexivity.
  - intros e H0 Hn.
    assert (ErrorHandler.isRetryableError e = false) as Hf.
    { destruct (ErrorHandler.isRetryableError e) eqn:E; [|done].
      apply isRetryableError_spec in E. contradiction. }
    unfold withRetry. rewrite (retryLoop_fatal _ _ _ _ _ _ e) by done.
    split; reflexivity.
Qed.

Lemma C6_withRetry_three_attempts_witness :
  let flaky (k : nat) : result Z :=
    match k with
    | 0%nat | 1%nat => Throw unavailable
    | _ => Ok 42
    end in
  let invalid := ThrowMCP (ValidationError "Invalid input") in
  (outcome (withRetry flaky 3 1000) = Ok 42
   /\ invocations (withRetry flaky 3 1000) = 3%nat)
  /\ (outcome (withRetry (T := Z) (fun _ => Throw invalid) 3 1000) = Throw invalid
      /\ invocations (withRetry (T := Z) (fun _ => Throw invalid) 3 1000) = 1%nat).
Proof.
  intros flaky invalid.
  assert (retryableCause unavailable) as Hre.
  { eexists. split; [reflexivity|]. split; [reflexivity|]. left. reflexivity. }
  split.
  - apply (proj1 (C6_withRetry_three_attempts flaky 1000) unavailable unavailable 42);
      solve [reflexivity | exact Hre].
  - apply (proj2 (C6_withRetry_three_attempts (fun _ => Throw invalid) 1000) invalid);
      [reflexivity|].
    intros (e & Heq & Hname & _). injection Heq as <-. discriminate Hname.
Defined.

(** ** Validator *)

Lemma inClass_controlClass (c : ascii) : inClass controlClass c = strippedBySpec c.
Proof. destruct c as [[] [] [] [] [] [] [] []]; reflexivity. Qed.

Lemma removeClass_filter (class : list (N * N)) (s : string) :
  list_ascii_of_string (removeClass class s)
  = List.filter (fun c => negb (inClass class c)) (list_ascii_of_string s).
Proof.
  induction s as [|c s IH]; [reflexivity|].
  cbn [removeClass list_ascii_of_string List.filter].
  destruct (inClass class c); cbn [negb list_ascii_of_string]; congruence.
Qed.

(** C7.  On a string no longer than [maxLength], [sanitizeString] returns
    the characters of the input that are not among 0x00-0x08, 0x0B, 0x0C,
    0x0E-0x1F and 0x7F, in their order (so newline and tab stay); on a
    longer string and on anything that is not a string it throws a
    [ValidationError]; and it maps "a\x00b\x01c" to "abc". *)
Theorem C7_sanitizeString (input : jsval) (maxLength : Z) :
  (forall s, input = Some (JStr s) -> Z.of_nat (String.length s) <= maxLength ->
     exists out,
       Validator.sanitizeString input maxLength = Ok out
       /\ list_ascii_of_string out
          = List.filter (fun c => negb (strippedBySpec c)) (list_ascii_of_string s))
  /\ (forall s, input = Some (JStr s) -> maxLength < Z.of_nat (String.length s) ->
        exists msg,
          Validator.sanitizeString input maxLength = Throw (ThrowMCP (ValidationError msg)))
  /\ ((forall s, input <> Some (JStr s)) ->
        exists msg,
          Validator.sanitizeString input maxLength = Throw (ThrowMCP (ValidationError msg)))
  /\ strippedBySpec "010" = false
  /\ strippedBySpec "009" = false
  /\ Validator.sanitizeString (Some (JStr dirtySample)) Validator.defaultMaxLength = Ok "abc".
Proof.
  repeat split; try reflexivity.
  - intros s -> Hlen. unfold Validator.sanitizeString.
    destruct (Z.gtb_spec (Z.of_nat (String.length s)) maxLength); [lia|].
    eexists. split; [reflexivity|].
    rewrite removeClass_filter. apply filter_ext. intros c.
    now rewrite inClass_controlClass.
  - intros s -> Hlen. unfold Validator.sanitizeString.
    destruct (Z.gtb_spec (Z.of_nat (String.length s)) maxLength); [|lia].
    eexists. reflexivity.
  - intros Hns. unfold Validator.sanitizeString.
    destruct input as [[]|]; try (eexists; reflexivity).
    exfalso. eapply Hns. reflexivity.
Qed.

Lemma C7_sanitizeString_witness :
  let clean := String "a" (String "010" (String "009" (String "127" (String "b" EmptyString)))) in
  (exists out,
     Validator.sanitizeString (Some (JStr clean)) 5 = Ok out
     /\ list_ascii_of_string out = ["a"; "010"; "009"; "b"]%char)
  /\ (exists msg,
        Validator.sanitizeString (Some (JStr clean)) 4 = Throw (ThrowMCP (ValidationError msg)))
  /\ (exists msg,
        Validator.sanitizeString (Some (JNum (inject_Z 123))) Validator.defaultMaxLength
        = Throw (ThrowMCP (ValidationError msg))).
Proof.
  intros clean. split; [|split].
  - destruct (proj1 (C7_sanitizeString (Some (JStr clean)) 5) clean) as (out & Hout & Hkept);
      [reflexivity | vm_compute; discriminate |].
    exists out. split; [exact Hout|]. rewrite Hkept. reflexivity.
  - apply (proj1 (proj2 (C7_sanitizeString (Some (JStr clean)) 4)) clean);
      [reflexivity | vm_compute; reflexivity].
  - apply (proj1 (proj2 (proj2 (C7_sanitizeString (Some (JNum (inject_Z 123)))
                                  Validator.defaultMaxLength)))).
    intros s. discriminate.
Defined.

(** C8, as stated, fails: an envelope whose [method] is the empty string is
    not an envelope in the specification's sense, yet [validateMCPRequest]
    accepts it. *)
Lemma C8_empty_method_is_accepted :
  let request :=
    Some (JObj [("jsonrpc", JStr "2.0"); ("method", JStr ""); ("id", JNum (inject_Z 1))]) in
  envelopeAsSpecified request = false
  /\ Validator.validateMCPRequest request = Ok tt.
Proof. split; reflexivity. Qed.

(** C8, amended.  [validateMCPRequest] accepts a message exactly when it is
    an object whose [jsonrpc] is "2.0", whose [method] is a string (possibly
    empty) and whose [id] is neither [undefined] nor [null]; every other
    message makes it throw a [ValidationError]. *)
Theorem C8_validateMCPRequest (request : jsval) :
  (envelopeWithStringMethod request = true ->
     Validator.validateMCPRequest request = Ok tt)
  /\ (envelopeWithStringMethod request = false ->
        exists msg,
          Validator.validateMCPRequest request = Throw (ThrowMCP (ValidationError msg))).
Proof.
  unfold envelopeWithStringMethod, Validator.validateMCPRequest.
  destruct request as [[| | | | |members]|]; cbn [JS.prop];
    try (split; [discriminate | intros _; eexists; reflexivity]).
  destruct (JS.is_str (JS.assoc "jsonrpc" members) "2.0"); cbn [negb andb];
    [|split; [discriminate | intros _; eexists; reflexivity]].
  destruct (JS.assoc "method" members) as [[]|];
    try (split; [discriminate | intros _; eexists; reflexivity]).
  destruct (JS.nullish (JS.assoc "id" members)); cbn [negb andb].
  - split; [discriminate | intros _; eexists; reflexivity].
  - split; [reflexivity | discriminate].
Qed.

Lemma C8_validateMCPRequest_witness :
  Validator.validateMCPRequest
    (Some (JObj [("jsonrpc", JStr "2.0"); ("id", JNum (inject_Z 0)); ("method", JStr "tools/list")]))
  = Ok tt
  /\ exists msg,
       Validator.validateMCPRequest
         (Some (JObj [("jsonrpc", JStr "1.0"); ("id", JNum (inject_Z 1));
                      ("method", JStr "tools/list")]))
       = Throw (ThrowMCP (ValidationError msg)).
Proof.
  split.
  - apply (proj1 (C8_validateMCPRequest _)). reflexivity.
  - apply (proj2 (C8_validateMCPRequest _)). reflexivity.
Defined.

(** ** Rate limiter *)

Section LimiterFacts.

Variable config : Config.
Hypothesis enabled : rateLimitEnabled config = true.

Lemma checkLimit_opens this identifier now :
  opensWindow this identifier now ->
  Limiter.checkLimit config now identifier this
  = (Ok tt,
     Limiter.withRequests this
       (<[identifier := mkEntry 1 (now + windowMs this)]> (requests this))).
Proof.
  unfold opensWindow, Limiter.checkLimit. rewrite enabled. cbn [negb].
  destruct (requests this !! identifier) as [entry|]; [|reflexivity].
  intros Hle. destruct (now >=? resetTime entry) eqn:E; [reflexivity|].
  rewrite Z.geb_leb in E. apply Z.leb_gt in E. lia.
Qed.

Lemma checkLimit_counts this identifier now entry :
  requests this !! identifier = Some entry ->
  now < resetTime entry ->
  count entry < maxRequests this ->
  Limiter.checkLimit config now identifier this
  = (Ok tt,
     Limiter.withRequests this
       (<[identifier := mkEntry (count entry + 1) (resetTime entry)]> (requests this))).
Proof.
  intros Hget Hin Hlt. unfold Limiter.checkLimit. rewrite enabled, Hget. cbn [negb].
  destruct (now >=? resetTime entry) eqn:E1.
  { rewrite Z.geb_leb in E1. apply Z.leb_le in E1. lia. }
  destruct (count entry >=? maxRequests this) eqn:E2; [|reflexivity].
  rewrite Z.geb_leb in E2. apply Z.leb_le in E2. lia.
Qed.

Lemma checkLimit_rejects this identifier now entry :
  requests this !! identifier = Some entry ->
  now < resetTime entry ->
  maxRequests this <= count entry ->
  Limiter.checkLimit config now identifier this
  = (Throw (ThrowMCP (RateLimitError
              (Limiter.limitMessage (ceilDiv (resetTime entry - now) 1000)))),
     this).
Proof.
  intros Hget Hin Hge. unfold Limiter.checkLimit. rewrite enabled, Hget. cbn [negb].
  destruct (now >=? resetTime entry) eqn:E1.
  { rewrite Z.geb_leb in E1. apply Z.leb_le in E1. lia. }
  destruct (count entry >=? maxRequests this) eqn:E2; [reflexivity|].
  rewrite Z.geb_leb in E2. apply Z.leb_gt in E2. lia.
Qed.

(** A call for one key leaves the entries of the other keys alone. *)
Lemma checkLimit_other_key this identifier other now :
  identifier <> other ->
  requests (Limiter.checkLimit config now identifier this).2 !! other
  = requests this !! other.
Proof.
  intros Hne. unfold Limiter.checkLimit. rewrite enabled. cbn [negb].
  destruct (requests this !! identifier) as [entry|];
    repeat match goal with |- context [if ?b then _ else _] => destruct b end;
    cbn; rewrite ?lookup_insert_ne by done; reflexivity.
Qed.

(** [ceilDiv x 1000] is [x / 1000] rounded up. *)
Lemma ceilDiv_rounds_up (x : Z) :
  1000 * (ceilDiv x 1000 - 1) < x <= 1000 * ceilDiv x 1000.
Proof.
  unfold ceilDiv.
  pose proof (Z.div_mod (- x) 1000 ltac:(lia)).
  pose proof (Z.mod_pos_bound (- x) 1000 ltac:(lia)).
  lia.
Qed.

(** Calls inside the window of an entry with room left: each is admitted
    and counted. *)
Lemma checkAll_inside identifier (times : list Z) :
  forall this entry,
    requests this !! identifier = Some entry ->
    Forall (fun now => now < resetTime entry) times ->
    count entry + Z.of_nat (length times) <= maxRequests this ->
    let run := checkAll config identifier times this in
    Forall (fun r => r = Ok tt) run.1
    /\ requests run.2 !! identifier
       = Some (mkEntry (count entry + Z.of_nat (length times)) (resetTime entry))
    /\ maxRequests run.2 = maxRequests this
    /\ windowMs run.2 = windowMs this.
Proof.
  induction times as [|now rest IH]; intros this entry Hget Hin Hroom.
  - cbn. destruct entry as [c r]. rewrite Z.add_0_r. auto.
  - inversion Hin as [|? ? Hnow Hrest]; subst.
    cbn [length] in Hroom. cbn [checkAll].
    rewrite (checkLimit_counts this identifier now entry) by (done || lia).
    cbn [fst snd].
    set (next := Limiter.withRequests this _).
    destruct (IH next (mkEntry (count entry + 1) (resetTime entry))) as (Hok & Hfin & Hmax & Hwin).
    + subst next. cbn. apply lookup_insert_eq.
    + exact Hrest.
    + subst next. cbn. lia.
    + cbn in Hfin. repeat split.
      * constructor; [reflexivity | exact Hok].
      * rewrite Hfin. cbn [length]. f_equal. f_equal. lia.
      * rewrite Hmax. reflexivity.
      * rewrite Hwin. reflexivity.
Qed.

End LimiterFacts.

(** C5, as stated, fails for [maxRequests = 0]: the first call for a key
    falls inside the window it opens and would be the [(N+1)]-th, yet it is
    admitted. *)
Lemma C5_first_call_admitted_at_limit_zero :
  let config := mkConfig true 0 60000 in
  let first := Limiter.checkLimit config 5 "default" (Limiter.create config) in
  maxRequests (Limiter.create config) = 0
  /\ first.1 = Ok tt
  /\ requests first.2 !! "default" = Some (mkEntry 1 60005).
Proof. repeat split; reflexivity. Qed.

(** C5, amended.  With rate limiting enabled and [maxRequests = N >= 1]: of
    the calls for a key that start with the one opening a window and fall
    before that window's reset time, the first [N] are admitted and the
    next is rejected with a [RateLimitError] whose message gives the time
    left until the reset in seconds, rounded up; and a call at or after the
    reset time of the key's entry is admitted and replaces the entry by a
    fresh window with count 1. *)
Theorem C5_rate_limit_window (config : Config) (identifier : string) :
  rateLimitEnabled config = true ->
  (forall this opening inside late,
      1 <= maxRequests this ->
      opensWindow this identifier opening ->
      Z.of_nat (length inside) = maxRequests this - 1 ->
      Forall (fun now => now < opening + windowMs this) inside ->
      late < opening + windowMs this ->
      let run := checkAll config identifier (opening :: inside) this in
      let resetIn := ceilDiv (opening + windowMs this - late) 1000 in
      Forall (fun r => r = Ok tt) run.1
      /\ Limiter.checkLimit config late identifier run.2
         = (Throw (ThrowMCP (RateLimitError (Limiter.limitMessage resetIn))), run.2)
      /\ Limiter.limitMessage resetIn
         = "Rate limit exceeded. Try again in " +:+ pretty resetIn +:+ " seconds."
      /\ 1000 * (resetIn - 1) < opening + windowMs this - late <= 1000 * resetIn)
  /\ (forall this entry now,
        requests this !! identifier = Some entry ->
        resetTime entry <= now ->
        Limiter.checkLimit config now identifier this
        = (Ok tt,
           Limiter.withRequests this
             (<[identifier := mkEntry 1 (now + windowMs this)]> (requests this)))).
Proof.
  intros enabled. split.
  - intros this opening inside late HN Hopen Hlen Hin Hlate run resetIn.
    subst run. cbn [checkAll].
    rewrite (checkLimit_opens config enabled this identifier opening Hopen).
    cbn [fst snd].
    set (opened := Limiter.withRequests this _).
    destruct (checkAll_inside config enabled identifier inside opened
                (mkEntry 1 (opening + windowMs this)))
      as (Hok & Hfin & Hmax & Hwin).
    + subst opened. cbn. apply lookup_insert_eq.
    + exact Hin.
    + subst opened. cbn. lia.
    + cbn in Hfin. repeat split.
      * constructor; [reflexivity | exact Hok].
      * rewrite (checkLimit_rejects config enabled _ identifier late _ Hfin).
        -- reflexivity.
        -- cbn. lia.
        -- rewrite Hmax. subst opened. cbn. lia.
      * apply ceilDiv_rounds_up.
      * apply ceilDiv_rounds_up.
  - intros this entry now Hget Hle.
    apply checkLimit_opens; [exact enabled|].
    unfold opensWindow. rewrite Hget. exact Hle.
Qed.

Lemma C5_rate_limit_window_witness :
  let config := mkConfig true 2 60000 in
  let this := Limiter.create config in
  let run := checkAll config "default" [0; 10] this in
  (Forall (fun r => r = Ok tt) run.1
   /\ Limiter.checkLimit config 20 "default" run.2
      = (Throw (ThrowMCP (RateLimitError (Limiter.limitMessage 60))), run.2)
   /\ Limiter.limitMessage 60 = "Rate limit exceeded. Try again in 60 seconds."
   /\ 1000 * (60 - 1) < 59980 <= 1000 * 60)
  /\ Limiter.checkLimit config 60000 "default" run.2
     = (Ok tt,
        Limiter.withRequests run.2
          (<["default" := mkEntry 1 120000]> (requests run.2))).
Proof.
  intros config this run.
  assert (rateLimitEnabled config = true) as Hon by reflexivity.
  split.
  - apply (proj1 (C5_rate_limit_window config "default" Hon) this 0 [10] 20).
    + vm_compute. discriminate.
    + exact I.
    + reflexivity.
    + repeat constructor.
    + reflexivity.
  - apply (proj2 (C5_rate_limit_window config "default" Hon) run.2 (mkEntry 2 60000) 60000).
    + reflexivity.
    + vm_compute. discriminate.
Defined.

(** ** Tool handlers *)

Lemma or_undeclared_filter (given : jsval) :
  isDeclaredFilter given = false ->
  JSOps.or given (JStr "all") = JStr "all"
  \/ (forall s, In s declaredFilters -> JS.is_str (Some (JSOps.or given (JStr "all"))) s = false).
Proof.
  intros Hund. destruct given as [j|]; [|left; reflexivity].
  unfold JSOps.or. destruct (JS.truthy (Some j)); [|left; reflexivity].
  right. intros s Hs. destruct j; try reflexivity.
  cbn in Hund |- *.
  repeat (apply orb_false_elim in Hund; destruct Hund as [? Hund]).
  cbn in Hs. intuition (subst; assumption).
Qed.

(** C9.  [list_models] with filter "thinking" answers with exactly the
    entries of the model table whose [thinking] member is [true] (the three
    2.5 models, in table order); with a filter outside all, thinking,
    vision, grounding, json_mode it still succeeds and answers with the
    whole table; and the [count] of the metadata is always the number of
    models returned. *)
Theorem C9_listModels (id args : jsval) :
  (JS.optprop args "filter" = Some (JStr "thinking") ->
     exists modelList,
       Server.listModels id args
       = success id (PModels modelList (Z.of_nat (length modelList)) (JStr "thinking"))
       /\ (forall entry,
             In entry modelList <-> In entry GEMINI_MODELS /\ thinking entry.2 = Some true)
       /\ map fst modelList = ["gemini-2.5-pro"; "gemini-2.5-flash"; "gemini-2.5-flash-lite"])
  /\ (isDeclaredFilter (JS.optprop args "filter") = false ->
        exists filter,
          Server.listModels id args
          = success id (PModels GEMINI_MODELS (Z.of_nat (length GEMINI_MODELS)) filter))
  /\ (exists modelList filter,
        Server.listModels id args
        = success id (PModels modelList (Z.of_nat (length modelList)) filter)).
Proof.
  split; [|split].
  - intros Hf. unfold Server.listModels. rewrite Hf. cbn [JSOps.or JS.truthy].
    exists (List.filter (fun entry => bool_decide (thinking entry.2 = Some true))
              GEMINI_MODELS).
    split; [reflexivity|]. split; [|reflexivity].
    intros entry. rewrite List.filter_In, bool_decide_eq_true. reflexivity.
  - intros Hund. unfold Server.listModels.
    destruct (or_undeclared_filter _ Hund) as [-> | Hnone].
    + eexists. reflexivity.
    + set (filter := JSOps.or _ _) in *.
      rewrite !Hnone by (cbn; tauto). cbn [negb].
      eexists. reflexivity.
  - unfold Server.listModels. eexists. eexists. reflexivity.
Qed.

Lemma C9_listModels_witness :
  (exists modelList,
     Server.listModels (Some (JNum (inject_Z 7)))
       (Some (JObj [("filter", JStr "thinking")]))
     = success (Some (JNum (inject_Z 7)))
         (PModels modelList (Z.of_nat (length modelList)) (JStr "thinking"))
     /\ (forall entry,
           In entry modelList <-> In entry GEMINI_MODELS /\ thinking entry.2 = Some true)
     /\ map fst modelList = ["gemini-2.5-pro"; "gemini-2.5-flash"; "gemini-2.5-flash-lite"])
  /\ (exists filter,
        Server.listModels (Some (JNum (inject_Z 7)))
          (Some (JObj [("filter", JStr "fastest")]))
        = success (Some (JNum (inject_Z 7)))
            (PModels GEMINI_MODELS (Z.of_nat (length GEMINI_MODELS)) filter)).
Proof.
  split.
  - apply (proj1 (C9_listModels _ _)). reflexivity.
  - apply (proj1 (proj2 (C9_listModels _ _))). reflexivity.
Defined.

Section GenerateFacts.

Variable JSON_parse : string -> option json.

Lemma assoc_without_eq k members : JS.assoc k (withoutMember k members) = undefined.
Proof.
  induction members as [|[k' v] rest IH]; [reflexivity|].
  cbn. destruct (String.eqb k k') eqn:E; cbn; [exact IH|].
  rewrite E. exact IH.
Qed.

Lemma assoc_without_ne k k' members :
  k <> k' -> JS.assoc k' (withoutMember k members) = JS.assoc k' members.
Proof.
  intros Hne. induction members as [|[k0 v] rest IH]; [reflexivity|].
  cbn. destruct (String.eqb k k0) eqn:E; cbn.
  - apply String.eqb_eq in E. subst k0.
    destruct (String.eqb_spec k' k); [congruence | exact IH].
  - destruct (String.eqb k' k0); [reflexivity | exact IH].
Qed.

Lemma member_without_ne {T} k k' members (p : parser T) :
  k <> k' ->
  Zod.member (JObj (withoutMember k members)) k' p = Zod.member (JObj members) k' p.
Proof. intros Hne. unfold Zod.member. cbn [JS.prop]. now rewrite assoc_without_ne. Qed.

Lemma member_without_eq {T} k members (p : parser T) :
  Zod.member (JObj (withoutMember k members)) k (Zod.optional p) = (Some None, []).
Proof. unfold Zod.member. cbn [JS.prop]. now rewrite assoc_without_eq. Qed.

Lemma num_or_zero q (fallback : Q) :
  (q == 0)%Q -> JS.num_or (Some q) fallback = fallback.
Proof.
  intros Hq. unfold JS.num_or, JS.is_zero.
  unfold Qeq in Hq. cbn in Hq.
  destruct (Z.eqb_spec (Qnum q) 0); [reflexivity | lia].
Qed.

(** A number equal to zero passes a range check around zero. *)
Lemma member_zero_number members k q lo hi :
  JS.assoc k members = Some (JNum q) -> (q == 0)%Q -> lo <= 0 <= hi ->
  Zod.member (JObj members) k (Zod.optional (Zod.number lo hi)) = (Some (Some q), []).
Proof.
  intros Hk Hq Hb. unfold Zod.member, Zod.optional, Zod.number. cbn [JS.prop].
  rewrite Hk.
  assert (Qle_bool (inject_Z lo) q = true) as ->.
  { apply Qle_bool_iff. rewrite Hq. unfold Qle. cbn. lia. }
  assert (Qle_bool q (inject_Z hi) = true) as ->.
  { apply Qle_bool_iff. rewrite Hq. unfold Qle. cbn. lia. }
  reflexivity.
Qed.

(** Runs through the members of the schema, one at a time; a member that
    fails to parse makes the whole parse fail. *)
Ltac each_member members :=
  repeat match goal with
  | |- context [Zod.member (JObj members) ?k ?p] =>
      generalize (Zod.member (JObj members) k p); intros [[?|] ?];
      cbn; [|discriminate]
  end.

Lemma schema_zero_temperature members q v :
  JS.assoc "temperature" members = Some (JNum q) -> (q == 0)%Q ->
  ToolSchemas.generateText JSON_parse (Some (JObj members)) = inl v ->
  a_temperature v = Some q
  /\ ToolSchemas.generateText JSON_parse (Some (JObj (withoutMember "temperature" members)))
     = inl (setTemperature None v).
Proof.
  intros Ht Hq. unfold ToolSchemas.generateText.
  rewrite member_without_eq.
  rewrite !(member_without_ne "temperature") by discriminate.
  unfold CommonSchemas.temperature.
  rewrite (member_zero_number members "temperature" q 0 2 Ht Hq) by lia.
  each_member members.
  intros [= <-]. split; reflexivity.
Qed.

Lemma schema_zero_topP members q v :
  JS.assoc "topP" members = Some (JNum q) -> (q == 0)%Q ->
  ToolSchemas.generateText JSON_parse (Some (JObj members)) = inl v ->
  a_topP v = Some q
  /\ ToolSchemas.generateText JSON_parse (Some (JObj (withoutMember "topP" members)))
     = inl (setTopP None v).
Proof.
  intros Ht Hq. unfold ToolSchemas.generateText.
  rewrite member_without_eq.
  rewrite !(member_without_ne "topP") by discriminate.
  unfold CommonSchemas.topP.
  rewrite (member_zero_number members "topP" q 0 1 Ht Hq) by lia.
  each_member members.
  intros [= <-]. split; reflexivity.
Qed.

Lemma withJsonMode_keeps v g g' :
  Server.withJsonMode JSON_parse v g = Ok g' ->
  temperature g' = temperature g /\ topP g' = topP g.
Proof.
  unfold Server.withJsonMode.
  destruct (a_jsonMode v) as [[]|]; try (intros [= <-]; split; reflexivity).
  destruct (a_jsonSchema v) as [s|]; [|intros [= <-]; split; reflexivity].
  destruct (String.eqb s ""); [intros [= <-]; split; reflexivity|].
  destruct (Validator.validateJSON JSON_parse s); [|discriminate].
  intros [= <-]; split; reflexivity.
Qed.

(** The sampling parameters of a request that was built. *)
Lemma buildRequest_sampling conversations args v request :
  Server.buildRequest JSON_parse conversations args v = Ok request ->
  temperature (rq_generationConfig request)
  = JS.num_or (a_temperature v) Server.defaultTemperature
  /\ topP (rq_generationConfig request) = JS.num_or (a_topP v) Server.defaultTopP.
Proof.
  unfold Server.buildRequest.
  destruct (modelInfoOf _ _); [|discriminate].
  destruct (Server.withJsonMode _ _ _) as [g|] eqn:Hjson; [|discriminate].
  apply withJsonMode_keeps in Hjson.
  destruct (Validator.sanitizeString _ _); [|discriminate].
  destruct (Server.systemInstructionOf _); [|discriminate].
  intros [= <-]. exact Hjson.
Qed.

(** The request depends on the raw arguments only through three members. *)
Lemma buildRequest_args conversations args args' v :
  JS.optprop args' "safetySettings" = JS.optprop args "safetySettings" ->
  JS.optprop args' "grounding" = JS.optprop args "grounding" ->
  JS.optprop args' "conversationId" = JS.optprop args "conversationId" ->
  Server.buildRequest JSON_parse conversations args' v
  = Server.buildRequest JSON_parse conversations args v.
Proof.
  intros Hs Hg Hc.
  unfold Server.buildRequest, Server.safetySettingsOf, Server.conversationKey.
  rewrite Hs, Hg, Hc. reflexivity.
Qed.

Lemma buildRequest_without conversations k members v :
  k <> "safetySettings" -> k <> "grounding" -> k <> "conversationId" ->
  Server.buildRequest JSON_parse conversations (Some (JObj (withoutMember k members))) v
  = Server.buildRequest JSON_parse conversations (Some (JObj members)) v.
Proof.
  intros. apply buildRequest_args; cbn [JS.optprop JS.prop];
    now apply assoc_without_ne.
Qed.

Lemma buildRequest_zero_temperature conversations args v q :
  a_temperature v = Some q -> (q == 0)%Q ->
  Server.buildRequest JSON_parse conversations args (setTemperature None v)
  = Server.buildRequest JSON_parse conversations args v.
Proof.
  intros Ht Hq. destruct v. cbn in Ht. subst.
  unfold Server.buildRequest, Server.withJsonMode, Server.systemInstructionOf, setTemperature.
  cbn [a_prompt a_model a_systemInstruction a_temperature a_maxTokens a_topK a_topP
       a_jsonMode a_jsonSchema a_grounding a_safetySettings a_conversationId].
  rewrite (num_or_zero q _ Hq). reflexivity.
Qed.

Lemma buildRequest_zero_topP conversations args v q :
  a_topP v = Some q -> (q == 0)%Q ->
  Server.buildRequest JSON_parse conversations args (setTopP None v)
  = Server.buildRequest JSON_parse conversations args v.
Proof.
  intros Ht Hq. destruct v. cbn in Ht. subst.
  unfold Server.buildRequest, Server.withJsonMode, Server.systemInstructionOf, setTopP.
  cbn [a_prompt a_model a_systemInstruction a_temperature a_maxTokens a_topK a_topP
       a_jsonMode a_jsonSchema a_grounding a_safetySettings a_conversationId].
  rewrite (num_or_zero q _ Hq). reflexivity.
Qed.

(** What [prepareGenerate] does once the parameters have parsed. *)
Lemma prepareGenerate_validated conversations args v :
  ToolSchemas.generateText JSON_parse args = inl v ->
  Server.prepareGenerate JSON_parse conversations args
  = Server.buildRequest JSON_parse conversations args v.
Proof.
  intros Hv. unfold Server.prepareGenerate, Validator.validateToolParams.
  rewrite Hv. reflexivity.
Qed.

Lemma prepareGenerate_Ok conversations args request :
  Server.prepareGenerate JSON_parse conversations args = Ok request ->
  exists v, ToolSchemas.generateText JSON_parse args = inl v
            /\ Server.buildRequest JSON_parse conversations args v = Ok request.
Proof.
  unfold Server.prepareGenerate, Validator.validateToolParams.
  destruct (ToolSchemas.generateText JSON_parse args) as [v|]; [|discriminate].
  eauto.
Qed.

(** The request that was prepared is the one request sent. *)
Lemma generateText_calls api conversations id args request :
  Server.prepareGenerate JSON_parse conversations args = Ok request ->
  calls (Server.generateText JSON_parse api conversations id args)
  = [GenerateContent request].
Proof.
  intros Hp. unfold Server.generateText. rewrite Hp.
  destruct (api (GenerateContent request)); reflexivity.
Qed.

End GenerateFacts.

(** C10.  When the parameters of a [generate_text] call validate and carry
    an explicit [temperature] of 0, the generation config of the request
    sent to the remote service has temperature 0.7, and the request is the
    very one the same call builds with [temperature] omitted; likewise an
    explicit [topP] of 0 is sent as 0.95, as if [topP] were omitted. *)
Theorem C10_zero_sampling_parameters (JSON_parse : string -> option json)
    (api : Remote) (conversations : gmap string (list Content)) (id : jsval)
    (members : list (string * json)) (q : Q) (request : GenerateRequest) :
  (q == 0)%Q ->
  Server.prepareGenerate JSON_parse conversations (Some (JObj members)) = Ok request ->
  calls (Server.generateText JSON_parse api conversations id (Some (JObj members)))
  = [GenerateContent request]
  /\ (JS.assoc "temperature" members = Some (JNum q) ->
        temperature (rq_generationConfig request) = 7 # 10
        /\ Server.prepareGenerate JSON_parse conversations
             (Some (JObj (withoutMember "temperature" members))) = Ok request)
  /\ (JS.assoc "topP" members = Some (JNum q) ->
        topP (rq_generationConfig request) = 95 # 100
        /\ Server.prepareGenerate JSON_parse conversations
             (Some (JObj (withoutMember "topP" members))) = Ok request).
Proof.
  intros Hq Hp. split; [now apply generateText_calls|].
  destruct (prepareGenerate_Ok _ _ _ _ Hp) as (v & Hv & Hb).
  destruct (buildRequest_sampling _ _ _ _ _ Hb) as (Htemp & Htop).
  split.
  - intros Hm.
    destruct (schema_zero_temperature JSON_parse members q v Hm Hq Hv) as (Hvt & Hv').
    split.
    + rewrite Htemp, Hvt. now apply num_or_zero.
    + rewrite (prepareGenerate_validated _ _ _ _ Hv').
      rewrite buildRequest_without by discriminate.
      rewrite (buildRequest_zero_temperature _ _ _ _ q Hvt Hq). exact Hb.
  - intros Hm.
    destruct (schema_zero_topP JSON_parse members q v Hm Hq Hv) as (Hvt & Hv').
    split.
    + rewrite Htop, Hvt. now apply num_or_zero.
    + rewrite (prepareGenerate_validated _ _ _ _ Hv').
      rewrite buildRequest_without by discriminate.
      rewrite (buildRequest_zero_topP _ _ _ _ q Hvt Hq). exact Hb.
Qed.

Lemma C10_zero_sampling_parameters_witness :
  let parse : string -> option json := fun _ => None in
  let api : Remote := fun _ => Ok (mkApiReply (Some "ok") undefined None undefined None) in
  let members :=
    [("prompt", JStr "hi"); ("temperature", JNum (inject_Z 0)); ("topP", JNum (inject_Z 0))] in
  let request :=
    mkGenerateRequest "gemini-2.5-flash" [mkContent ["hi"] RoleUser]
      (mkGenerationConfig (7 # 10) (inject_Z 2048) (inject_Z 40) (95 # 100) None undefined)
      None undefined false in
  calls (Server.generateText parse api ∅ (Some (JNum (inject_Z 1))) (Some (JObj members)))
  = [GenerateContent request]
  /\ (temperature (rq_generationConfig request) = 7 # 10
      /\ Server.prepareGenerate parse ∅ (Some (JObj (withoutMember "temperature" members)))
         = Ok request)
  /\ (topP (rq_generationConfig request) = 95 # 100
      /\ Server.prepareGenerate parse ∅ (Some (JObj (withoutMember "topP" members)))
         = Ok request).
Proof.
  intros parse api members request.
  destruct (C10_zero_sampling_parameters parse api ∅ (Some (JNum (inject_Z 1)))
              members (inject_Z 0) request) as (Hcalls & Htemp & Htop);
    [reflexivity | reflexivity |].
  split; [exact Hcalls|].
  split; [apply Htemp | apply Htop]; reflexivity.
Defined.

(** ** The request pipeline *)

Section PipelineFacts.

Variable JSON_parse : string -> option json.
Variable toString : jsval -> string.

(** Whatever goes wrong inside [generateText], validation included, is
    answered with the code of an internal error. *)
Lemma generateText_invalid_params api conversations id args issues :
  ToolSchemas.generateText JSON_parse args = inr issues ->
  exists msg,
    Validator.validateToolParams (ToolSchemas.generateText JSON_parse) args
    = Throw (ThrowMCP (ValidationError msg))
    /\ code (ValidationError msg) = -32602
    /\ written (Server.generateText JSON_parse api conversations id args)
       = [failure id (-32603) msg].
Proof.
  intros Hbad. unfold Server.generateText, Server.prepareGenerate,
    Validator.validateToolParams.
  rewrite Hbad. eexists. repeat split.
Qed.

(** The messages of a request that was built: the stored history, then the
    new user message. *)
Lemma buildRequest_contents conversations args v request cid :
  Server.buildRequest JSON_parse conversations args v = Ok request ->
  Server.conversationKey args = Some cid ->
  exists promptText,
    Validator.sanitizeString (Some (JStr (a_prompt v))) Validator.defaultMaxLength
    = Ok promptText
    /\ rq_contents request
       = Server.historyOf conversations cid ++ [mkContent [promptText] RoleUser].
Proof.
  unfold Server.buildRequest. intros Hb Hkey. rewrite Hkey in Hb.
  destruct (modelInfoOf _ _); [|discriminate].
  destruct (Server.withJsonMode _ _ _); [|discriminate].
  destruct (Validator.sanitizeString _ _) as [promptText|]; [|discriminate].
  destruct (Server.systemInstructionOf _); [|discriminate].
  injection Hb as <-. exists promptText. split; [reflexivity|].
  cbn [rq_contents].
  destruct (Server.historyOf conversations cid); reflexivity.
Qed.

(** After a successful call with a conversation id, the stored history is
    the old history, then everything that was sent (the old history once
    more and the user message), then the reply. *)
Lemma generateText_history api conversations id args request reply cid :
  Server.prepareGenerate JSON_parse conversations args = Ok request ->
  api (GenerateContent request) = Ok reply ->
  Server.conversationKey args = Some cid ->
  exists promptText,
    rq_contents request
    = Server.historyOf conversations cid ++ [mkContent [promptText] RoleUser]
    /\ store (Server.generateText JSON_parse api conversations id args) !! cid
       = Some (Server.historyOf conversations cid
               ++ (Server.historyOf conversations cid ++ [mkContent [promptText] RoleUser])
               ++ [mkContent [JS.str_or (reply_text reply) ""] RoleModel]).
Proof.
  intros Hp Hapi Hkey.
  destruct (prepareGenerate_Ok _ _ _ _ Hp) as (v & _ & Hb).
  destruct (buildRequest_contents _ _ _ _ _ Hb Hkey) as (promptText & _ & Hcontents).
  exists promptText. split; [exact Hcontents|].
  unfold Server.generateText. rewrite Hp, Hapi, Hkey. cbn [store].
  rewrite lookup_insert_eq, Hcontents. reflexivity.
Qed.

(** Every tool call is answered once, with the id of the request. *)
Lemma handleToolCall_one_response api conversations request :
  exists r,
    written (Server.handleToolCall JSON_parse toString api conversations request) = [r]
    /\ id r = JS.prop request "id".
Proof.
  unfold Server.handleToolCall.
  repeat match goal with
  | |- context [if JS.is_str ?v ?s then _ else _] => destruct (JS.is_str v s)
  end; cbn [written fst snd].
  - unfold Server.generateText.
    destruct (Server.prepareGenerate _ _ _) as [requestBody|];
      [destruct (api _)|]; eexists; split; reflexivity.
  - unfold Server.analyzeImage.
    repeat match goal with
    | |- context [match ?x with _ => _ end] => destruct x
    end; eexists; split; reflexivity.
  - unfold Server.countTokens.
    repeat match goal with
    | |- context [match ?x with _ => _ end] => destruct x
    end; eexists; split; reflexivity.
  - eexists; split; reflexivity.
  - unfold Server.embedText.
    repeat match goal with
    | |- context [match ?x with _ => _ end] => destruct x
    end; eexists; split; reflexivity.
  - eexists; split; reflexivity.
  - eexists; split; reflexivity.
Qed.

(** A request that has an [id] member is answered exactly once by
    [handleRequest], with that id. *)
Lemma handleRequest_one_response api conversations request :
  is_Some (JS.prop request "id") ->
  exists r,
    written (Server.handleRequest JSON_parse toString api conversations request) = [r]
    /\ id r = JS.prop request "id".
Proof.
  intros Hid. unfold Server.handleRequest, Server.route, Server.handleResourceRead.
  rewrite (bool_decide_eq_true_2 _ Hid). cbn [negb].
  repeat match goal with
  | |- context [if ?b then _ else _] => destruct b
  end; try (eexists; split; reflexivity).
  apply handleToolCall_one_response.
Qed.

Lemma validateMCPRequest_has_id request :
  Validator.validateMCPRequest (Some request) = Ok tt ->
  is_Some (JS.prop request "id") /\ JS.nullish (JS.prop request "id") = false.
Proof.
  unfold Validator.validateMCPRequest.
  destruct request; try discriminate;
    destruct (negb _); try discriminate;
    destruct (JS.prop _ "method") as [[]|]; try discriminate;
    destruct (JS.prop _ "id") as [[]|]; try discriminate; intros _; split; eauto.
Qed.

(** A valid envelope that the limiter admits is answered exactly once, with
    its id. *)
Lemma onLine_admitted config now api this request :
  Validator.validateMCPRequest (Some request) = Ok tt ->
  (Limiter.checkLimit config now "default" (limiter this)).1 = Ok tt ->
  exists r,
    (Server.onLine JSON_parse toString config now api this (Some request)).1.2 = [r]
    /\ id r = JS.prop request "id".
Proof.
  intros Hvalid Hlimit. unfold Server.onLine. rewrite Hvalid, Hlimit. cbn [fst snd].
  apply handleRequest_one_response.
  now apply validateMCPRequest_has_id.
Qed.

(** A valid envelope that the limiter rejects is answered, with the
    rate-limit code, only if its id is truthy: an id of [0], [""] or
    [false] gets no response at all. *)
Lemma onLine_rejected config now api this request e :
  Validator.validateMCPRequest (Some request) = Ok tt ->
  (Limiter.checkLimit config now "default" (limiter this)).1
  = Throw (ThrowMCP (RateLimitError e)) ->
  (Server.onLine JSON_parse toString config now api this (Some request)).1.2
  = if JS.truthy (JS.prop request "id")
    then [failure (JS.prop request "id") (-32002) e]
    else [].
Proof.
  intros Hvalid Hlimit. unfold Server.onLine. rewrite Hvalid, Hlimit. cbn [fst snd].
  unfold Server.errorReply. destruct (JS.truthy _); reflexivity.
Qed.

End PipelineFacts.

(** C4 (defect of the code).  A [generate_text] call whose parameters fail
    the schema (an empty prompt, a temperature of 3) makes
    [validateToolParams] throw a [ValidationError], whose code is -32602,
    but the [catch] of [generateText] answers with the code of an internal
    error, -32603. *)
Theorem C4_invalid_parameters_answered_as_internal_error
    (JSON_parse : string -> option json) (toString : jsval -> string) (api : Remote) :
  let emptyPrompt := [("prompt", JStr "")] in
  let hot := [("prompt", JStr "hi"); ("temperature", JNum (inject_Z 3))] in
  Validator.validateToolParams (ToolSchemas.generateText JSON_parse) (Some (JObj emptyPrompt))
  = Throw (ThrowMCP (ValidationError "Invalid parameters: prompt: Prompt is required"))
  /\ code (ValidationError "Invalid parameters: prompt: Prompt is required") = -32602
  /\ written (Server.handleRequest JSON_parse toString api ∅
                (toolCall (JNum (inject_Z 1)) "generate_text" emptyPrompt))
     = [failure (Some (JNum (inject_Z 1))) (-32603)
          "Invalid parameters: prompt: Prompt is required"]
  /\ written (Server.handleRequest JSON_parse toString api ∅
                (toolCall (JNum (inject_Z 2)) "generate_text" hot))
     = [failure (Some (JNum (inject_Z 2))) (-32603)
          "Invalid parameters: temperature: Number must be less than or equal to 2"].
Proof. repeat split; reflexivity. Qed.

(** C2 (defect of the code).  Two successful [generate_text] calls on the
    conversation "c1": the second request carries the first exchange and
    then the new user message, in order, as the claim says; but afterwards
    the stored history holds the first exchange twice, because the messages
    pushed onto the history are the request's contents, which already start
    with the history. *)
Theorem C2_second_call_duplicates_history (JSON_parse : string -> option json) :
  let id := Some (JNum (inject_Z 1)) in
  let first :=
    Server.generateText JSON_parse (replying "hello") ∅ id
      (Some (JObj [("prompt", JStr "hi"); ("conversationId", JStr "c1")])) in
  let second :=
    Server.generateText JSON_parse (replying "again") (store first) id
      (Some (JObj [("prompt", JStr "more"); ("conversationId", JStr "c1")])) in
  let u1 := mkContent ["hi"] RoleUser in
  let m1 := mkContent ["hello"] RoleModel in
  let u2 := mkContent ["more"] RoleUser in
  let m2 := mkContent ["again"] RoleModel in
  store first !! "c1" = Some [u1; m1]
  /\ map (fun call => match call with
                      | GenerateContent request => rq_contents request
                      | _ => []
                      end) (calls second) = [[u1; m1; u2]]
  /\ store second !! "c1" = Some [u1; m1; u1; m1; u2; m2]
  /\ store second !! "c1" <> Some [u1; m1; u2; m2].
Proof. repeat split; try reflexivity. vm_compute. discriminate. Qed.

(** C1 (defect of the code).  With a limit of one request per minute, a
    first [tools/list] request with id 0 is answered; a second one, one
    millisecond later, is a valid envelope too, is rejected by the limiter,
    and nothing at all is written for it, because the [catch] of the line
    handler answers only when the id is truthy; the same happens with the
    empty string as id.  The same line with id 7 gets the rate-limit
    failure. *)
Theorem C1_rate_limited_request_with_id_zero_gets_no_response
    (JSON_parse : string -> option json) (toString : jsval -> string) (api : Remote) :
  let config := mkConfig true 1 60000 in
  let start := mkServerState ∅ (Limiter.create config) in
  let line id := Some (envelope id "tools/list" []) in
  let zero := JNum (inject_Z 0) in
  let seven := JNum (inject_Z 7) in
  let first := Server.onLine JSON_parse toString config 0 api start (line zero) in
  let second := Server.onLine JSON_parse toString config 1 api first.1.1 (line zero) in
  let blank := Server.onLine JSON_parse toString config 1 api first.1.1 (line (JStr "")) in
  let other := Server.onLine JSON_parse toString config 1 api first.1.1 (line seven) in
  Validator.validateMCPRequest (line zero) = Ok tt
  /\ Validator.validateMCPRequest (line (JStr "")) = Ok tt
  /\ first.1.2 = [success (Some zero) PTools]
  /\ second.1.2 = []
  /\ blank.1.2 = []
  /\ other.1.2
     = [failure (Some seven) (-32002) "Rate limit exceeded. Try again in 60 seconds."].
Proof. repeat split; reflexivity. Qed.

(** * Further properties of the code *)

(** ** Retry policy, continued *)

Section RetryShape.

Context {T : Type}.
Implicit Types (operation : nat -> result T) (error : thrown).

(** The loop, from any attempt on: where it stops, what it returns, how
    long it slept and why it went on. *)
Lemma retryLoop_shape operation maxAttempts baseDelay remaining :
  forall attempt last,
    (attempt + S remaining = maxAttempts)%nat ->
    let run := retryLoop operation maxAttempts baseDelay (S remaining) attempt last in
    (attempt < invocations run <= maxAttempts)%nat
    /\ outcome run = operation (invocations run - 1)%nat
    /\ sleeps run
       = map (fun k => baseDelay * 2 ^ Z.of_nat k)
           (seq attempt (invocations run - 1 - attempt))
    /\ (forall k, (attempt <= k < invocations run - 1)%nat ->
          exists e, operation k = Throw e /\ ErrorHandler.isRetryableError e = true)
    /\ ((invocations run < maxAttempts)%nat ->
          forall e, operation (invocations run - 1)%nat = Throw e ->
                    ErrorHandler.isRetryableError e = false).
Proof.
  induction remaining as [|remaining IH]; intros attempt last Hsum run; subst run.
  - cbn [retryLoop].
    destruct (operation attempt) as [v|e] eqn:Hop.
    + cbn. replace (attempt - 0)%nat with attempt by lia.
      replace (attempt - attempt)%nat with 0%nat by lia.
      repeat split; solve [lia | done | intros; lia | intros; congruence].
    + destruct (Z.eqb_spec (Z.of_nat attempt) (Z.of_nat maxAttempts - 1)); [|lia].
      cbn. replace (attempt - 0)%nat with attempt by lia.
      replace (attempt - attempt)%nat with 0%nat by lia.
      repeat split; solve [lia | done | intros; lia | intros; congruence].
  - destruct (operation attempt) as [v|e] eqn:Hop.
    + rewrite (retryLoop_success _ _ _ _ _ _ v Hop).
      cbn. replace (attempt - 0)%nat with attempt by lia.
      replace (attempt - attempt)%nat with 0%nat by lia.
      repeat split; solve [lia | done | intros; lia | intros; congruence].
    + destruct (ErrorHandler.isRetryableError e) eqn:Hre.
      * rewrite (retryLoop_retry _ _ _ _ _ _ e Hop Hre) by lia.
        specialize (IH (S attempt) e ltac:(lia)). cbn zeta in IH.
        set (rest := retryLoop operation maxAttempts baseDelay (S remaining) (S attempt) e) in *.
        destruct IH as (Hinv & Hout & Hsl & Hall & Hstop).
        cbn [slept invocations outcome sleeps].
        split; [lia|]. split; [exact Hout|]. split; [|split].
        -- rewrite Hsl.
           replace (invocations rest - 1 - attempt)%nat
             with (S (invocations rest - 1 - S attempt)) by lia.
           reflexivity.
        -- intros k Hk. destruct (decide (k = attempt)) as [->|Hne]; [eauto|].
           apply Hall. lia.
        -- exact Hstop.
      * rewrite (retryLoop_fatal _ _ _ _ _ _ e Hop Hre).
        cbn. replace (attempt - 0)%nat with attempt by lia.
        replace (attempt - attempt)%nat with 0%nat by lia.
        repeat split; solve [lia | done | intros; lia | intros; congruence].
Qed.

Lemma totalDelay_backoff (baseDelay : Z) (n : nat) :
  totalDelay (map (fun k => baseDelay * 2 ^ Z.of_nat k) (seq 0 n))
  = baseDelay * (2 ^ Z.of_nat n - 1).
Proof.
  induction n as [|n IH]; [cbn; lia|].
  rewrite seq_S, map_app. unfold totalDelay in *.
  rewrite foldr_app. cbn [map foldr Nat.add].
  assert (forall (l : list Z) a, foldr Z.add a l = foldr Z.add 0 l + a) as Hacc.
  { induction l as [|x l IHl]; intros a; cbn; [lia|]. rewrite IHl. lia. }
  rewrite Hacc, IH.
  replace (Z.of_nat (S n)) with (Z.of_nat n + 1) by lia.
  rewrite Z.pow_add_r by lia. lia.
Qed.

End RetryShape.

(** X1.  [getRetryDelay] stays between one and sixteen seconds, never
    decreases from one attempt to the next, and is sixteen seconds from
    attempt 4 on. *)
Theorem X1_getRetryDelay_bounds (n : nat) :
  1000 <= ErrorHandler.getRetryDelay n <= 16000
  /\ ErrorHandler.getRetryDelay n <= ErrorHandler.getRetryDelay (S n)
  /\ ErrorHandler.getRetryDelay (4 + n) = 16000.
Proof.
  unfold ErrorHandler.getRetryDelay.
  assert (1 <= 2 ^ Z.of_nat n) by (apply Z.pow_le_mono_r with (b := 0); lia).
  assert (2 ^ Z.of_nat (S n) = 2 * 2 ^ Z.of_nat n) as HS.
  { replace (Z.of_nat (S n)) with (Z.of_nat n + 1) by lia.
    rewrite Z.pow_add_r by lia. lia. }
  assert (2 ^ 4 <= 2 ^ Z.of_nat (4 + n)) by (apply Z.pow_le_mono_r; lia).
  rewrite HS. lia.
Qed.

(** X2.  Every run of [withRetry] with at least one attempt invokes the
    operation between once and [maxAttempts] times and ends with the outcome
    of the last invocation; it slept [baseDelay * 2^k] after each earlier
    invocation [k], all of which failed with a retryable error; and if it
    stopped before the attempts ran out on a failure, that failure was not
    retryable.  With no attempt allowed the operation is never invoked and
    [undefined] is thrown. *)
Theorem X2_withRetry_run {T} (operation : nat -> result T) (maxAttempts : nat)
    (baseDelay : Z) :
  let run := withRetry operation (S maxAttempts) baseDelay in
  (1 <= invocations run <= S maxAttempts)%nat
  /\ outcome run = operation (invocations run - 1)%nat
  /\ sleeps run
     = map (fun k => baseDelay * 2 ^ Z.of_nat k) (seq 0 (invocations run - 1))
  /\ (forall k, (k < invocations run - 1)%nat ->
        exists e, operation k = Throw e /\ ErrorHandler.isRetryableError e = true)
  /\ ((invocations run < S maxAttempts)%nat ->
        forall e, outcome run = Throw e -> ErrorHandler.isRetryableError e = false)
  /\ withRetry operation 0 baseDelay = mkRetryRun (Throw (ThrowValue undefined)) 0 [].
Proof.
  intros run. subst run. unfold withRetry at 1 2 3 4 5 6 7 8.
  destruct (retryLoop_shape operation (S maxAttempts) baseDelay maxAttempts 0
              (ThrowValue undefined) ltac:(lia)) as (Hinv & Hout & Hsl & Hall & Hstop).
  set (run := retryLoop operation (S maxAttempts) baseDelay (S maxAttempts) 0 _) in *.
  repeat split; try lia; try done.
  - rewrite Hsl. now rewrite Nat.sub_0_r.
  - intros k Hk. apply Hall. lia.
  - intros Hlt e He. apply Hstop; [exact Hlt|]. now rewrite <- Hout.
Qed.

Lemma X2_withRetry_run_witness :
  let flaky (k : nat) : result Z :=
    match k with
    | 0%nat => Throw unavailable
    | _ => Throw (ThrowError "boom")
    end in
  let run := withRetry flaky 5 100 in
  (1 <= invocations run <= 5)%nat
  /\ outcome run = flaky (invocations run - 1)%nat
  /\ sleeps run = map (fun k => 100 * 2 ^ Z.of_nat k) (seq 0 (invocations run - 1))
  /\ (exists e, flaky 0%nat = Throw e /\ ErrorHandler.isRetryableError e = true)
  /\ ErrorHandler.isRetryableError (ThrowError "boom") = false.
Proof.
  intros flaky run.
  destruct (X2_withRetry_run flaky 4 100) as (Hinv & Hout & Hsl & Hall & Hstop & _).
  split; [exact Hinv|]. split; [exact Hout|]. split; [exact Hsl|]. split.
  - apply Hall. vm_compute. lia.
  - apply Hstop; [vm_compute; lia | reflexivity].
Defined.

(** X3.  An operation that fails with a retryable error every time is
    invoked exactly [maxAttempts] times, the error of its last invocation is
    thrown, and in between [withRetry] waits [baseDelay * (2^(maxAttempts-1)
    - 1)] in all. *)
Theorem X3_withRetry_exhausted {T} (operation : nat -> result T) (maxAttempts : nat)
    (baseDelay : Z) :
  (forall k, exists e,
      operation k = Throw e /\ ErrorHandler.isRetryableError e = true) ->
  let run := withRetry operation (S maxAttempts) baseDelay in
  invocations run = S maxAttempts
  /\ outcome run = operation maxAttempts
  /\ length (sleeps run) = maxAttempts
  /\ totalDelay (sleeps run) = baseDelay * (2 ^ Z.of_nat maxAttempts - 1).
Proof.
  intros Hfail run. subst run. unfold withRetry.
  destruct (retryLoop_shape operation (S maxAttempts) baseDelay maxAttempts 0
              (ThrowValue undefined) ltac:(lia)) as (Hinv & Hout & Hsl & _ & Hstop).
  set (run := retryLoop operation (S maxAttempts) baseDelay (S maxAttempts) 0 _) in *.
  assert (invocations run = S maxAttempts) as Hall.
  { destruct (decide (invocations run < S maxAttempts)%nat) as [Hlt|]; [|lia].
    destruct (Hfail (invocations run - 1)%nat) as (e & He & Hre).
    rewrite (Hstop Hlt e He) in Hre. discriminate. }
  rewrite Hall in Hout, Hsl.
  replace (S maxAttempts - 1)%nat with maxAttempts in Hout, Hsl by lia.
  rewrite Nat.sub_0_r in Hsl.
  repeat split; try done.
  - rewrite Hsl, length_map, length_seq. reflexivity.
  - rewrite Hsl. apply totalDelay_backoff.
Qed.

Lemma X3_withRetry_exhausted_witness :
  let run := withRetry (T := Z) (fun _ => Throw unavailable) 3 1000 in
  invocations run = 3%nat
  /\ outcome run = Throw unavailable
  /\ length (sleeps run) = 2%nat
  /\ totalDelay (sleeps run) = 1000 * (2 ^ 2 - 1).
Proof.
  apply (X3_withRetry_exhausted (T := Z) (fun _ => Throw unavailable) 2 1000).
  intros k. exists unavailable. split; reflexivity.
Defined.


(** ** Validator, continued *)

Lemma removeClass_length (class : list (N * N)) (s : string) :
  (String.length (removeClass class s) <= String.length s)%nat.
Proof.
  induction s as [|c s IH]; [done|].
  cbn [removeClass]. destruct (inClass class c); cbn [String.length]; lia.
Qed.

Lemma removeClass_clean (class : list (N * N)) (s : string) :
  Forall (fun c => inClass class c = false) (list_ascii_of_string (removeClass class s)).
Proof.
  induction s as [|c s IH]; [constructor|].
  cbn [removeClass]. destruct (inClass class c) eqn:E; [exact IH|].
  cbn [list_ascii_of_string]. constructor; assumption.
Qed.

Lemma removeClass_of_clean (class : list (N * N)) (s : string) :
  Forall (fun c => inClass class c = false) (list_ascii_of_string s) ->
  removeClass class s = s.
Proof.
  induction s as [|c s IH]; [done|].
  cbn [list_ascii_of_string removeClass]. intros Hall.
  inversion Hall as [|? ? Hc Hrest]; subst. rewrite Hc, IH by assumption. reflexivity.
Qed.

(** X5.  What [sanitizeString] returns holds no stripped character and is
    no longer than the input; sanitizing it again changes nothing; and an
    input without stripped characters comes back as it is. *)
Theorem X5_sanitizeString_idempotent (s out : string) (maxLength : Z) :
  Validator.sanitizeString (Some (JStr s)) maxLength = Ok out ->
  Forall (fun c => inClass controlClass c = false) (list_ascii_of_string out)
  /\ (String.length out <= String.length s)%nat
  /\ Validator.sanitizeString (Some (JStr out)) maxLength = Ok out
  /\ (Forall (fun c => inClass controlClass c = false) (list_ascii_of_string s) ->
      out = s).
Proof.
  unfold Validator.sanitizeString.
  destruct (Z.gtb_spec (Z.of_nat (String.length s)) maxLength) as [|Hfit]; [discriminate|].
  intros [= <-].
  pose proof (removeClass_length controlClass s) as Hlen.
  pose proof (removeClass_clean controlClass s) as Hclean.
  repeat split; try assumption.
  - destruct (Z.gtb_spec (Z.of_nat (String.length (removeClass controlClass s))) maxLength);
      [lia|].
    now rewrite (removeClass_of_clean _ _ Hclean).
  - apply removeClass_of_clean.
Qed.

Lemma X5_sanitizeString_idempotent_witness :
  let dirty := String "a" (String "007" (String "b" EmptyString)) in
  let out := String "a" (String "b" EmptyString) in
  Forall (fun c => inClass controlClass c = false) (list_ascii_of_string out)
  /\ (String.length out <= String.length dirty)%nat
  /\ Validator.sanitizeString (Some (JStr out)) 3 = Ok out.
Proof.
  intros dirty out.
  destruct (X5_sanitizeString_idempotent dirty out 3) as (H1 & H2 & H3 & _);
    [reflexivity|].
  split; [exact H1|]. split; [exact H2 | exact H3].
Defined.

Section SchemaFacts.

Variable JSON_parse : string -> option json.

Lemma member_parsed {T} args k (p : parser T) x l :
  Zod.member args k p = (Some x, l) -> p (JS.prop args k) = inl x /\ l = [].
Proof.
  unfold Zod.member. destruct (p (JS.prop args k)); intros [= <- <-]; auto.
Qed.

Lemma optional_parsed {T} (p : parser T) v x :
  Zod.optional p v = inl (Some x) -> p v = inl x.
Proof.
  unfold Zod.optional. destruct v; [|discriminate].
  destruct (p (Some j)); congruence.
Qed.


Lemma number_parsed lo hi v q :
  Zod.number lo hi v = inl q ->
  v = Some (JNum q) /\ (inject_Z lo <= q)%Q /\ (q <= inject_Z hi)%Q.
Proof.
  unfold Zod.number. destruct v as [[]|]; try discriminate.
  destruct (Qle_bool (inject_Z lo) q0) eqn:E1; cbn [negb]; [|discriminate].
  destruct (Qle_bool q0 (inject_Z hi)) eqn:E2; cbn [negb]; [|discriminate].
  intros [= <-]. apply Qle_bool_iff in E1, E2. auto.
Qed.

Lemma string_parsed checks v s :
  Zod.string_ checks v = inl s ->
  v = Some (JStr s) /\ Forall (fun check => check.1 s = true) checks.
Proof.
  unfold Zod.string_. destruct v as [[]|]; try discriminate.
  destruct (omap _ checks) eqn:E; [|discriminate].
  intros [= <-]. split; [reflexivity|].
  induction checks as [|[ok msg] checks IH]; [constructor|].
  cbn in E. destruct (ok s0) eqn:Hok.
  - constructor; [exact Hok | apply IH; exact E].
  - discriminate.
Qed.

Lemma enum_parsed values v s :
  Zod.enum values v = inl s -> v = Some (JStr s) /\ In s values.
Proof.
  unfold Zod.enum. destruct v as [[]|]; try discriminate.
  destruct (existsb (String.eqb s0) values) eqn:E; [|discriminate].
  intros [= <-]. split; [reflexivity|].
  apply existsb_exists in E as (x & Hin & Heq). apply String.eqb_eq in Heq. now subst.
Qed.


(** The parse of [ToolSchemas.generateText], member by member. *)
Lemma generateText_schema_members args v :
  ToolSchemas.generateText JSON_parse args = inl v ->
  exists members, args = Some (JObj members)
  /\ Zod.string_ [(Zod.minLength 1, "Prompt is required")] (JS.assoc "prompt" members)
     = inl (a_prompt v)
  /\ Zod.optional CommonSchemas.geminiModel (JS.assoc "model" members) = inl (a_model v)
  /\ Zod.optional (Zod.string_ []) (JS.assoc "systemInstruction" members)
     = inl (a_systemInstruction v)
  /\ Zod.optional CommonSchemas.temperature (JS.assoc "temperature" members)
     = inl (a_temperature v)
  /\ Zod.optional CommonSchemas.maxTokens (JS.assoc "maxTokens" members)
     = inl (a_maxTokens v)
  /\ Zod.optional CommonSchemas.topK (JS.assoc "topK" members) = inl (a_topK v)
  /\ Zod.optional CommonSchemas.topP (JS.assoc "topP" members) = inl (a_topP v)
  /\ Zod.optional Zod.boolean (JS.assoc "jsonMode" members) = inl (a_jsonMode v)
  /\ Zod.optional (CommonSchemas.jsonSchema JSON_parse) (JS.assoc "jsonSchema" members)
     = inl (a_jsonSchema v)
  /\ Zod.optional Zod.boolean (JS.assoc "grounding" members) = inl (a_grounding v)
  /\ Zod.optional (CommonSchemas.safetySettings JSON_parse)
       (JS.assoc "safetySettings" members) = inl (a_safetySettings v)
  /\ Zod.optional CommonSchemas.conversationId (JS.assoc "conversationId" members)
     = inl (a_conversationId v).
Proof.
  unfold ToolSchemas.generateText.
  destruct args as [[| | | | |members]|]; try discriminate.
  intros Hv. exists members. split; [reflexivity|]. revert Hv.
  repeat match goal with
  | |- context [Zod.member (JObj members) ?k ?p] =>
      let E := fresh "E" in
      destruct (Zod.member (JObj members) k p) as [[?|] ?] eqn:E;
      [apply member_parsed in E as [E _]; cbn [JS.prop] in E | ];
      cbn; [|discriminate]
  end.
  intros [= <-]. cbn. repeat split; assumption.
Qed.

End SchemaFacts.

Section ValidatedFacts.

Variable JSON_parse : string -> option json.

Lemma validated_bounds (args : jsval) (v : generateTextArgs) :
  ToolSchemas.generateText JSON_parse args = inl v ->
  JS.optprop args "prompt" = Some (JStr (a_prompt v))
  /\ (1 <= String.length (a_prompt v))%nat
  /\ (forall m, a_model v = Some m -> In m (map fst GEMINI_MODELS))
  /\ (forall t, a_temperature v = Some t -> (inject_Z 0 <= t)%Q /\ (t <= inject_Z 2)%Q)
  /\ (forall n, a_maxTokens v = Some n -> (inject_Z 1 <= n)%Q /\ (n <= inject_Z 8192)%Q)
  /\ (forall k, a_topK v = Some k -> (inject_Z 1 <= k)%Q /\ (k <= inject_Z 100)%Q)
  /\ (forall p, a_topP v = Some p -> (inject_Z 0 <= p)%Q /\ (p <= inject_Z 1)%Q)
  /\ (forall s, a_jsonSchema v = Some s -> is_Some (JSON_parse s))
  /\ (forall s, a_safetySettings v = Some s -> exists items, JSON_parse s = Some (JArr items))
  /\ (forall c, a_conversationId v = Some c -> (1 <= String.length c <= 100)%nat).
Proof.
  intros Hv.
  destruct (generateText_schema_members JSON_parse args v Hv)
    as (members & -> & Hp & Hm & _ & Ht & Hmt & Htk & Htp & _ & Hjs & _ & Hss & Hc).
  apply string_parsed in Hp as [Hp Hpc].
  inversion Hpc as [|? ? Hmin _]; subst. cbn [fst] in Hmin.
  unfold Zod.minLength in Hmin. apply Nat.leb_le in Hmin.
  split; [exact Hp|]. split; [exact Hmin|].
  split; [|split; [|split; [|split; [|split; [|split; [|split; [|]]]]]]].
  - intros m Hsome. rewrite Hsome in Hm.
    apply optional_parsed, enum_parsed in Hm as [_ Hin]. exact Hin.
  - intros t Hsome. rewrite Hsome in Ht.
    apply optional_parsed, number_parsed in Ht. tauto.
  - intros n Hsome. rewrite Hsome in Hmt.
    apply optional_parsed, number_parsed in Hmt. tauto.
  - intros k Hsome. rewrite Hsome in Htk.
    apply optional_parsed, number_parsed in Htk. tauto.
  - intros p Hsome. rewrite Hsome in Htp.
    apply optional_parsed, number_parsed in Htp. tauto.
  - intros s Hsome. rewrite Hsome in Hjs.
    apply optional_parsed, string_parsed in Hjs as [_ Hchecks].
    inversion Hchecks as [|? ? Hok _]; subst. cbn in Hok.
    now apply bool_decide_eq_true in Hok.
  - intros s Hsome. rewrite Hsome in Hss.
    apply optional_parsed, string_parsed in Hss as [_ Hchecks].
    inversion Hchecks as [|? ? Hok _]; subst. cbn in Hok.
    destruct (JSON_parse s) as [[]|]; try discriminate. eauto.
  - intros c Hsome. rewrite Hsome in Hc.
    apply optional_parsed, string_parsed in Hc as [_ Hchecks].
    inversion Hchecks as [|? ? Hlo Hrest]; subst.
    inversion Hrest as [|? ? Hhi _]; subst. cbn [fst] in Hlo, Hhi.
    unfold Zod.minLength, Zod.maxLength in Hlo, Hhi.
    apply Nat.leb_le in Hlo, Hhi. lia.
Qed.

(** X6.  Parameters that [ToolSchemas.generateText] lets through are within
    the declared bounds: the prompt is the string given and is not empty, a
    model is one of the table, temperature lies in 0..2, maxTokens in
    1..8192, topK in 1..100, topP in 0..1, a JSON schema parses, safety
    settings parse to an array, and a conversation id has 1 to 100
    characters. *)
Theorem X6_validated_parameters (args : jsval) (v : generateTextArgs) :
  ToolSchemas.generateText JSON_parse args = inl v ->
  JS.optprop args "prompt" = Some (JStr (a_prompt v))
  /\ (1 <= String.length (a_prompt v))%nat
  /\ (forall m, a_model v = Some m -> In m (map fst GEMINI_MODELS))
  /\ (forall t, a_temperature v = Some t -> (inject_Z 0 <= t)%Q /\ (t <= inject_Z 2)%Q)
  /\ (forall n, a_maxTokens v = Some n -> (inject_Z 1 <= n)%Q /\ (n <= inject_Z 8192)%Q)
  /\ (forall k, a_topK v = Some k -> (inject_Z 1 <= k)%Q /\ (k <= inject_Z 100)%Q)
  /\ (forall p, a_topP v = Some p -> (inject_Z 0 <= p)%Q /\ (p <= inject_Z 1)%Q)
  /\ (forall s, a_jsonSchema v = Some s -> is_Some (JSON_parse s))
  /\ (forall s, a_safetySettings v = Some s -> exists items, JSON_parse s = Some (JArr items))
  /\ (forall c, a_conversationId v = Some c -> (1 <= String.length c <= 100)%nat).
Proof. apply validated_bounds. Qed.

Lemma validated_model_known (args : jsval) (v : generateTextArgs) :
  ToolSchemas.generateText JSON_parse args = inl v ->
  In (JS.str_or (a_model v) Server.defaultModel) (map fst GEMINI_MODELS)
  /\ is_Some (modelInfoOf GEMINI_MODELS (JS.str_or (a_model v) Server.defaultModel)).
Proof.
  intros Hv.
  destruct (generateText_schema_members JSON_parse args v Hv)
    as (members & _ & _ & Hm & _).
  destruct (a_model v) as [m|]; [|split; [cbn; tauto | eexists; reflexivity]].
  apply optional_parsed, enum_parsed in Hm as [_ Hin].
  cbn in Hin.
  repeat (destruct Hin as [<- | Hin]; [split; [cbn; tauto | eexists; reflexivity]|]).
  contradiction.
Qed.

Lemma withJsonMode_validated (args : jsval) (v : generateTextArgs) g :
  ToolSchemas.generateText JSON_parse args = inl v ->
  exists g',
    Server.withJsonMode JSON_parse v g = Ok g'
    /\ temperature g' = temperature g /\ maxOutputTokens g' = maxOutputTokens g
    /\ topK g' = topK g /\ topP g' = topP g
    /\ (responseMimeType g = None ->
        (responseMimeType g' = Some "application/json" <-> a_jsonMode v = Some true)).
Proof.
  intros Hv.
  destruct (generateText_schema_members JSON_parse args v Hv)
    as (members & _ & _ & _ & _ & _ & _ & _ & _ & _ & Hjs & _).
  unfold Server.withJsonMode.
  destruct (a_jsonMode v) as [[]|].
  2,3: exists g; repeat split; try done; intros; congruence.
  destruct (a_jsonSchema v) as [s|].
  2: eexists; repeat split; done.
  destruct (String.eqb s ""); [eexists; repeat split; done|].
  apply optional_parsed, string_parsed in Hjs as [_ Hchecks].
  inversion Hchecks as [|? ? Hok _]; subst. cbn in Hok.
  apply bool_decide_eq_true in Hok as [schema Hschema].
  unfold Validator.validateJSON. rewrite Hschema.
  eexists; repeat split; done.
Qed.

Lemma sanitize_default_cases (s : string) :
  (Z.of_nat (String.length s) <= 10000 ->
     Validator.sanitizeString (Some (JStr s)) Validator.defaultMaxLength
     = Ok (removeClass controlClass s))
  /\ (10000 < Z.of_nat (String.length s) ->
        Validator.sanitizeString (Some (JStr s)) Validator.defaultMaxLength
        = Throw (ThrowMCP (ValidationError "Input too long (max 10000 characters)"))).
Proof.
  unfold Validator.sanitizeString, Validator.defaultMaxLength.
  destruct (Z.gtb_spec (Z.of_nat (String.length s)) 10000); split; intros; try lia;
    reflexivity.
Qed.

(** X7.  Once the parameters of [generate_text] have passed the schema, the
    only thing that can still stop the request from being built is a prompt
    or a system instruction of more than 10000 characters: the checks for an
    unknown model and for an unparsable JSON schema can no longer fire. *)
Theorem X7_request_building_after_validation
    (conversations : gmap string (list Content)) (args : jsval) (v : generateTextArgs) :
  ToolSchemas.generateText JSON_parse args = inl v ->
  (Z.of_nat (String.length (a_prompt v)) <= 10000 ->
   (forall si, a_systemInstruction v = Some si -> Z.of_nat (String.length si) <= 10000) ->
   exists request, Server.prepareGenerate JSON_parse conversations args = Ok request)
  /\ (forall e,
        Server.prepareGenerate JSON_parse conversations args = Throw e ->
        e = ThrowMCP (ValidationError "Input too long (max 10000 characters)")).
Proof.
  intros Hv. rewrite (prepareGenerate_validated JSON_parse conversations args v Hv).
  unfold Server.buildRequest.
  destruct (validated_model_known args v Hv) as [_ [info ->]].
  match goal with
  | |- context [Server.withJsonMode JSON_parse v ?g] =>
      destruct (withJsonMode_validated args v g Hv) as (g' & -> & _)
  end.
  destruct (sanitize_default_cases (a_prompt v)) as [Hfit Hlong].
  unfold Server.systemInstructionOf.
  split.
  - intros Hp Hsi. rewrite (Hfit Hp).
    destruct (a_systemInstruction v) as [si|]; [|eexists; reflexivity].
    destruct (String.eqb si ""); [eexists; reflexivity|].
    rewrite (proj1 (sanitize_default_cases si)) by auto. eexists; reflexivity.
  - intros e.
    destruct (Z_le_gt_dec (Z.of_nat (String.length (a_prompt v))) 10000) as [Hp|Hp].
    + rewrite (Hfit Hp).
      destruct (a_systemInstruction v) as [si|]; [|discriminate].
      destruct (String.eqb si ""); [discriminate|].
      destruct (Z_le_gt_dec (Z.of_nat (String.length si)) 10000) as [Hs|Hs].
      * rewrite (proj1 (sanitize_default_cases si)) by auto. discriminate.
      * rewrite (proj2 (sanitize_default_cases si)) by lia. now intros [= <-].
    + rewrite Hlong by lia. now intros [= <-].
Qed.

End ValidatedFacts.

Lemma X6_validated_parameters_witness :
  let parse : string -> option json := fun _ => Some (JArr []) in
  let args :=
    Some (JObj [("prompt", JStr "hi"); ("temperature", JNum (3 # 2));
                ("safetySettings", JStr "[]"); ("conversationId", JStr "c1")]) in
  ((inject_Z 0 <= 3 # 2)%Q /\ (3 # 2 <= inject_Z 2)%Q)
  /\ (exists items, parse "[]" = Some (JArr items))
  /\ (1 <= String.length "c1" <= 100)%nat.
Proof.
  intros parse args.
  destruct (X6_validated_parameters parse args
              (mkGenerateTextArgs "hi" None None (Some (3 # 2)) None None None None None
                 None (Some "[]") (Some "c1")))
    as (_ & _ & _ & Ht & _ & _ & _ & _ & Hss & Hc); [reflexivity|].
  split; [apply Ht; reflexivity|]. split; [apply Hss; reflexivity | apply Hc; reflexivity].
Defined.

Lemma X7_request_building_after_validation_witness :
  let parse : string -> option json := fun _ => None in
  exists request,
    Server.prepareGenerate parse ∅
      (Some (JObj [("prompt", JStr "hi"); ("systemInstruction", JStr "be brief")]))
    = Ok request.
Proof.
  intros parse.
  apply (proj1 (X7_request_building_after_validation parse ∅
                  (Some (JObj [("prompt", JStr "hi"); ("systemInstruction", JStr "be brief")]))
                  (mkGenerateTextArgs "hi" None (Some "be brief") None None None None
                     None None None None None) eq_refl)).
  - vm_compute. discriminate.
  - intros si [= <-]. vm_compute. discriminate.
Defined.

Section RequestFacts.

Variable JSON_parse : string -> option json.



End RequestFacts.


(** ** Tool handlers, continued *)

Section HandlerFacts.

Variable JSON_parse : string -> option json.

(** X9.  What one [generateText] call does, whatever the arguments and the
    remote service: it answers once, with the id it was given; it calls the
    remote service at most once; it leaves every conversation but its own
    untouched; stored histories only grow; and when it answers with a
    failure (always with code -32603) or makes no remote call, the
    conversation store is as before. *)
Theorem X9_generateText_effects (api : Remote) (conversations : gmap string (list Content))
    (requestId args : jsval) :
  let handled := Server.generateText JSON_parse api conversations requestId args in
  (exists r, written handled = [r] /\ id r = requestId)
  /\ (length (calls handled) <= 1)%nat
  /\ (forall cid, Server.conversationKey args <> Some cid ->
        store handled !! cid = conversations !! cid)
  /\ (forall cid history, conversations !! cid = Some history ->
        exists more, store handled !! cid = Some (history ++ more))
  /\ (forall r code, written handled = [r] -> errorCode r = Some code ->
        code = -32603 /\ store handled = conversations)
  /\ (calls handled = [] -> store handled = conversations).
Proof.
  assert (forall e sent,
            let handled :=
              mkHandled [failure requestId (-32603) (messageOr "Internal error" e)]
                conversations sent in
            (length sent <= 1)%nat ->
            (exists r, written handled = [r] /\ id r = requestId)
            /\ (length (calls handled) <= 1)%nat
            /\ (forall cid, Server.conversationKey args <> Some cid ->
                  store handled !! cid = conversations !! cid)
            /\ (forall cid history, conversations !! cid = Some history ->
                  exists more, store handled !! cid = Some (history ++ more))
            /\ (forall r code, written handled = [r] -> errorCode r = Some code ->
                  code = -32603 /\ store handled = conversations)
            /\ (calls handled = [] -> store handled = conversations)) as Hfailed.
  { intros e sent handled Hsent. subst handled. cbn [written calls store].
    split; [eexists; split; reflexivity|]. split; [exact Hsent|].
    split; [done|]. split; [|split; [|done]].
    - intros cid history Hh. exists []. now rewrite app_nil_r.
    - intros r code Hr Hcode. injection Hr as <-. cbn in Hcode.
      injection Hcode as <-. split; reflexivity. }
  unfold Server.generateText.
  destruct (Server.prepareGenerate JSON_parse conversations args) as [requestBody|e];
    [|apply Hfailed; cbn; lia].
  destruct (api (GenerateContent requestBody)) as [reply|e];
    [|apply Hfailed; cbn; lia].
  clear Hfailed.
  cbn [written calls store length].
  split; [eexists; split; reflexivity|]. split; [lia|].
  destruct (Server.conversationKey args) as [key|].
  - split; [|split; [|split]].
    + intros cid Hne. apply lookup_insert_ne. congruence.
    + intros cid history Hh. destruct (decide (key = cid)) as [->|Hne].
      * rewrite lookup_insert_eq. unfold Server.historyOf. rewrite Hh. cbn. eauto.
      * rewrite lookup_insert_ne by done. exists []. now rewrite app_nil_r.
    + intros r code Hr Hcode. injection Hr as <-. discriminate Hcode.
    + discriminate.
  - split; [done|]. split; [|split].
    + intros cid history Hh. exists []. now rewrite app_nil_r.
    + intros r code Hr Hcode. injection Hr as <-. discriminate Hcode.
    + discriminate.
Qed.

End HandlerFacts.

Lemma X9_generateText_effects_witness :
  let parse : string -> option json := fun _ => None in
  let before : gmap string (list Content) :=
    {[ "c1" := [mkContent ["hi"] RoleUser; mkContent ["hello"] RoleModel];
       "c2" := [mkContent ["other"] RoleUser] ]} in
  let handled :=
    Server.generateText parse (replying "again") before (Some (JNum (inject_Z 3)))
      (Some (JObj [("prompt", JStr "more"); ("conversationId", JStr "c1")])) in
  store handled !! "c2" = before !! "c2"
  /\ exists more,
       store handled !! "c1"
       = Some ([mkContent ["hi"] RoleUser; mkContent ["hello"] RoleModel] ++ more).
Proof.
  intros parse before handled.
  destruct (X9_generateText_effects parse (replying "again") before
              (Some (JNum (inject_Z 3)))
              (Some (JObj [("prompt", JStr "more"); ("conversationId", JStr "c1")])))
    as (_ & _ & Hother & Hgrow & _).
  split.
  - apply Hother. vm_compute. discriminate.
  - apply Hgrow. reflexivity.
Defined.



(** ** Rate limiter, continued *)

Section LimiterMore.

Variable config : Config.

(** The outcome of a check and the entry it leaves for its key depend only
    on the entry of that key and on the two parameters. *)
Lemma checkLimit_local this that now identifier :
  requests this !! identifier = requests that !! identifier ->
  maxRequests this = maxRequests that ->
  windowMs this = windowMs that ->
  (Limiter.checkLimit config now identifier this).1
  = (Limiter.checkLimit config now identifier that).1
  /\ requests (Limiter.checkLimit config now identifier this).2 !! identifier
     = requests (Limiter.checkLimit config now identifier that).2 !! identifier.
Proof.
  intros Hget Hmax Hwin. unfold Limiter.checkLimit.
  destruct (rateLimitEnabled config); cbn [negb fst snd]; [|auto].
  rewrite <- Hget, <- Hmax, <- Hwin.
  destruct (requests this !! identifier) as [entry|] eqn:Hentry.
  - destruct (now >=? resetTime entry);
      [cbn; rewrite !lookup_insert_eq; auto|].
    destruct (count entry >=? maxRequests this); cbn; [split; congruence|].
    rewrite !lookup_insert_eq; auto.
  - cbn. rewrite !lookup_insert_eq. auto.
Qed.

Lemma checkLimit_parameters this now identifier :
  maxRequests (Limiter.checkLimit config now identifier this).2 = maxRequests this
  /\ windowMs (Limiter.checkLimit config now identifier this).2 = windowMs this.
Proof.
  unfold Limiter.checkLimit.
  repeat match goal with
  | |- context [match ?x with _ => _ end] => destruct x
  end; auto.
Qed.

Lemma checkLimit_other this now identifier other :
  identifier <> other ->
  requests (Limiter.checkLimit config now identifier this).2 !! other
  = requests this !! other.
Proof.
  intros Hne. unfold Limiter.checkLimit.
  repeat match goal with
  | |- context [match ?x with _ => _ end] => destruct x
  end; cbn; rewrite ?lookup_insert_ne by done; reflexivity.
Qed.

Lemma applyOp_countsWithinLimit this op :
  countsWithinLimit this ->
  countsWithinLimit (applyOp config this op)
  /\ maxRequests (applyOp config this op) = maxRequests this
  /\ windowMs (applyOp config this op) = windowMs this.
Proof.
  intros Hinv. destruct op as [now identifier|now|identifier|]; cbn [applyOp].
  - split; [|apply checkLimit_parameters].
    intros k entry. rewrite (proj1 (checkLimit_parameters this now identifier)).
    destruct (decide (identifier = k)) as [<-|Hne];
      [|rewrite checkLimit_other by done; apply Hinv].
    unfold Limiter.checkLimit.
    destruct (rateLimitEnabled config); cbn [negb]; [|apply Hinv].
    destruct (requests this !! identifier) as [old|] eqn:Hold.
    + specialize (Hinv identifier old Hold).
      destruct (now >=? resetTime old);
        [cbn; rewrite lookup_insert_eq; intros [= <-]; cbn; lia|].
      destruct (count old >=? maxRequests this) eqn:Hfull.
      * cbn. rewrite Hold. intros [= <-]. exact Hinv.
      * cbn. rewrite lookup_insert_eq. intros [= <-]. cbn.
        rewrite Z.geb_leb in Hfull. apply Z.leb_gt in Hfull. lia.
    + cbn. rewrite lookup_insert_eq. intros [= <-]. cbn. lia.
  - split; [|auto]. intros k entry. cbn.
    rewrite map_lookup_filter_Some. intros [Hget _]. exact (Hinv k entry Hget).
  - split; [|auto]. intros k entry. cbn.
    rewrite lookup_delete_Some. intros [_ Hget]. exact (Hinv k entry Hget).
  - split; [|auto]. intros k entry. cbn. rewrite lookup_empty. discriminate.
Qed.

Lemma runOps_countsWithinLimit ops :
  forall this,
    countsWithinLimit this ->
    countsWithinLimit (runOps config ops this)
    /\ maxRequests (runOps config ops this) = maxRequests this
    /\ windowMs (runOps config ops this) = windowMs this.
Proof.
  unfold runOps. induction ops as [|op ops IH]; intros this Hinv; [auto|].
  cbn [foldl].
  destruct (applyOp_countsWithinLimit this op Hinv) as (Hinv' & Hmax & Hwin).
  destruct (IH _ Hinv') as (Hfinal & Hmax' & Hwin').
  rewrite Hmax', Hwin'. auto.
Qed.

End LimiterMore.

(** X11.  Whatever checks, sweeps, resets and destroys a limiter goes
    through after its creation, each of its entries counts at least one
    request and never more than the configured limit (one, if the limit is
    smaller), and its two parameters stay those of the configuration. *)
Theorem X11_limiter_counts_within_limit (config : Config) (ops : list limiterOp)
    (identifier : string) (entry : RateLimitEntry) :
  let this := runOps config ops (Limiter.create config) in
  requests this !! identifier = Some entry ->
  1 <= count entry <= Z.max 1 (rateLimitRequests config)
  /\ maxRequests this = rateLimitRequests config
  /\ windowMs this = rateLimitWindow config.
Proof.
  intros this Hget.
  destruct (runOps_countsWithinLimit config ops (Limiter.create config))
    as (Hinv & Hmax & Hwin).
  { intros k e. cbn. rewrite lookup_empty. discriminate. }
  fold this in Hinv, Hmax, Hwin.
  specialize (Hinv identifier entry Hget). rewrite Hmax in Hinv.
  auto.
Qed.

Lemma X11_limiter_counts_within_limit_witness :
  let config := mkConfig true 2 1000 in
  let ops := [OpCheck 0 "a"; OpCheck 1 "a"; OpCheck 2 "a"; OpCleanup 3; OpCheck 4 "b";
              OpReset "b"; OpCheck 5 "a"] in
  1 <= 2 <= Z.max 1 2
  /\ maxRequests (runOps config ops (Limiter.create config)) = 2
  /\ windowMs (runOps config ops (Limiter.create config)) = 1000.
Proof.
  intros config ops.
  apply (X11_limiter_counts_within_limit config ops "a" (mkEntry 2 1000)).
  reflexivity.
Defined.

(** X12.  With the limiter enabled and a limit of at least one, a check is
    admitted exactly when [getUsage], asked at the same instant, reports a
    count below the limit; and if the window is positive, an admitted check
    raises the reported count by one and leaves the reported reset time as
    it was. *)
Theorem X12_getUsage_predicts_checkLimit (config : Config) (this : RateLimiter)
    (now : Z) (identifier : string) :
  rateLimitEnabled config = true ->
  1 <= maxRequests this ->
  let usage := Limiter.getUsage now identifier this in
  let checked := Limiter.checkLimit config now identifier this in
  usage.1.2 = maxRequests this
  /\ (checked.1 = Ok tt <-> usage.1.1 < usage.1.2)
  /\ (checked.1 = Ok tt -> 0 < windowMs this ->
      Limiter.getUsage now identifier checked.2 = (usage.1.1 + 1, usage.1.2, usage.2)).
Proof.
  intros Hon Hmax. unfold Limiter.getUsage, Limiter.checkLimit.
  rewrite Hon. cbn [negb].
  destruct (requests this !! identifier) as [entry|] eqn:Hentry.
  - destruct (now >=? resetTime entry) eqn:Hexp; cbn [fst snd].
    + split; [reflexivity|]. split; [split; [lia | reflexivity]|].
      intros _ Hwin. cbn. rewrite lookup_insert_eq. cbn.
      destruct (Z.geb_spec now (now + windowMs this)); [lia | reflexivity].
    + destruct (count entry >=? maxRequests this) eqn:Hfull; cbn [fst snd].
      * rewrite Z.geb_leb in Hfull. apply Z.leb_le in Hfull.
        split; [reflexivity|]. split; [split; [discriminate | lia]|]. discriminate.
      * rewrite Z.geb_leb in Hfull. apply Z.leb_gt in Hfull.
        split; [reflexivity|]. split; [split; [lia | reflexivity]|].
        intros _ _. cbn. rewrite lookup_insert_eq. cbn. rewrite Hexp. reflexivity.
  - cbn [fst snd]. split; [reflexivity|]. split; [split; [lia | reflexivity]|].
    intros _ Hwin. cbn. rewrite lookup_insert_eq. cbn.
    destruct (Z.geb_spec now (now + windowMs this)); [lia | reflexivity].
Qed.

Lemma X12_getUsage_predicts_checkLimit_witness :
  let config := mkConfig true 2 1000 in
  let this := (Limiter.checkLimit config 0 "default" (Limiter.create config)).2 in
  (Limiter.checkLimit config 5 "default" this).1 = Ok tt
  /\ Limiter.getUsage 5 "default" (Limiter.checkLimit config 5 "default" this).2
     = (1 + 1, 2, 1000).
Proof.
  intros config this.
  destruct (X12_getUsage_predicts_checkLimit config this 5 "default")
    as (_ & Hiff & Hafter); [reflexivity | vm_compute; discriminate |].
  assert ((Limiter.checkLimit config 5 "default" this).1 = Ok tt) as Hok.
  { apply Hiff. reflexivity. }
  split; [exact Hok|]. apply Hafter; [exact Hok | reflexivity].
Defined.

(** X13.  After [reset] of a key, or after [destroy], the next check for
    the key is admitted whatever was recorded before and opens a fresh
    window with count 1; [reset] leaves the entries of all other keys as
    they were. *)
Theorem X13_reset_opens_fresh_window (config : Config) (this : RateLimiter)
    (now : Z) (identifier other : string) :
  rateLimitEnabled config = true ->
  let fresh := Some (mkEntry 1 (now + windowMs this)) in
  (Limiter.checkLimit config now identifier (Limiter.reset identifier this)).1 = Ok tt
  /\ requests (Limiter.checkLimit config now identifier (Limiter.reset identifier this)).2
       !! identifier = fresh
  /\ (Limiter.checkLimit config now identifier (Limiter.destroy this)).1 = Ok tt
  /\ requests (Limiter.checkLimit config now identifier (Limiter.destroy this)).2
       !! identifier = fresh
  /\ (identifier <> other ->
      requests (Limiter.reset identifier this) !! other = requests this !! other).
Proof.
  intros Hon fresh. unfold Limiter.checkLimit. rewrite Hon. cbn [negb].
  cbn [Limiter.reset Limiter.destroy Limiter.withRequests requests maxRequests windowMs].
  rewrite lookup_delete_eq, lookup_empty. cbn.
  rewrite !lookup_insert_eq. repeat split; try reflexivity.
  intros Hne. now apply lookup_delete_ne.
Qed.

Lemma X13_reset_opens_fresh_window_witness :
  let config := mkConfig true 1 1000 in
  let full := (Limiter.checkLimit config 0 "default" (Limiter.create config)).2 in
  (Limiter.checkLimit config 1 "default" full).1 <> Ok tt
  /\ (Limiter.checkLimit config 1 "default" (Limiter.reset "default" full)).1 = Ok tt.
Proof.
  intros config full. split; [vm_compute; discriminate|].
  apply (X13_reset_opens_fresh_window config full 1 "default" "other"). reflexivity.
Defined.

(** X14.  The periodic sweep keeps exactly the entries whose window has not
    reached its reset time, and with the limiter enabled callers cannot tell
    that it ran: a check at or after the time of the sweep has the same
    outcome and leaves the same entry for its key as without the sweep. *)
Theorem X14_cleanup_is_invisible (config : Config) (this : RateLimiter)
    (swept now : Z) (identifier : string) :
  requests (Limiter.cleanup swept this) !! identifier
  = match requests this !! identifier with
    | Some entry => if swept <? resetTime entry then Some entry else None
    | None => None
    end
  /\ (rateLimitEnabled config = true -> swept <= now ->
      (Limiter.checkLimit config now identifier (Limiter.cleanup swept this)).1
      = (Limiter.checkLimit config now identifier this).1
      /\ requests (Limiter.checkLimit config now identifier (Limiter.cleanup swept this)).2
           !! identifier
         = requests (Limiter.checkLimit config now identifier this).2 !! identifier).
Proof.
  assert (requests (Limiter.cleanup swept this) !! identifier
          = match requests this !! identifier with
            | Some entry => if swept <? resetTime entry then Some entry else None
            | None => None
            end) as Hkept.
  { cbn. destruct (requests this !! identifier) as [entry|] eqn:Hentry.
    - destruct (Z.ltb_spec swept (resetTime entry)).
      + apply map_lookup_filter_Some. auto.
      + apply map_lookup_filter_None. right. intros e He. cbn.
        rewrite Hentry in He. injection He as <-. lia.
    - apply map_lookup_filter_None. left. exact Hentry. }
  split; [exact Hkept|].
  intros Hon Hlater.
  destruct (requests this !! identifier) as [entry|] eqn:Hentry.
  - destruct (Z.ltb_spec swept (resetTime entry)) as [Hlive|Hdead].
    + apply checkLimit_local; [congruence | reflexivity | reflexivity].
    + unfold Limiter.checkLimit. rewrite Hon. cbn [negb fst snd].
      rewrite Hkept, Hentry.
      destruct (Z.geb_spec now (resetTime entry)); [|lia].
      cbn. rewrite !lookup_insert_eq. auto.
  - unfold Limiter.checkLimit. rewrite Hon. cbn [negb fst snd].
    rewrite Hkept, Hentry. cbn. rewrite !lookup_insert_eq. auto.
Qed.

Lemma X14_cleanup_is_invisible_witness :
  let config := mkConfig true 1 1000 in
  let this := (Limiter.checkLimit config 0 "default" (Limiter.create config)).2 in
  (Limiter.checkLimit config 1500 "default" (Limiter.cleanup 1200 this)).1
  = (Limiter.checkLimit config 1500 "default" this).1
  /\ requests (Limiter.checkLimit config 1500 "default" (Limiter.cleanup 1200 this)).2
       !! "default"
     = requests (Limiter.checkLimit config 1500 "default" this).2 !! "default".
Proof.
  intros config this.
  apply (proj2 (X14_cleanup_is_invisible config this 1200 1500 "default"));
    [reflexivity | vm_compute; discriminate].
Defined.

(** X15.  Keys do not interfere: a check for one key changes neither the
    entry of another key nor the outcome of that key's next check. *)
Theorem X15_keys_are_independent (config : Config) (this : RateLimiter)
    (now later : Z) (identifier other : string) :
  identifier <> other ->
  let after := (Limiter.checkLimit config now identifier this).2 in
  requests after !! other = requests this !! other
  /\ (Limiter.checkLimit config later other after).1
     = (Limiter.checkLimit config later other this).1
  /\ requests (Limiter.checkLimit config later other after).2 !! other
     = requests (Limiter.checkLimit config later other this).2 !! other.
Proof.
  intros Hne after.
  pose proof (checkLimit_other config this now identifier other Hne) as Hsame.
  destruct (checkLimit_parameters config this now identifier) as [Hmax Hwin].
  split; [exact Hsame|].
  apply checkLimit_local; assumption.
Qed.

Lemma X15_keys_are_independent_witness :
  let config := mkConfig true 1 1000 in
  let this := Limiter.create config in
  (Limiter.checkLimit config 1 "b" (Limiter.checkLimit config 0 "a" this).2).1
  = (Limiter.checkLimit config 1 "b" this).1.
Proof.
  intros config this.
  apply (X15_keys_are_independent config this 0 1 "a" "b"). discriminate.
Defined.

(** ** The request pipeline, continued *)

Section PipelineMore.

Variable JSON_parse : string -> option json.
Variable toString : jsval -> string.

Lemma generateText_answer api conversations requestId args :
  exists r,
    written (Server.generateText JSON_parse api conversations requestId args) = [r]
    /\ id r = requestId /\ internalOrSuccess r
    /\ (length (calls (Server.generateText JSON_parse api conversations requestId args))
        <= 1)%nat.
Proof.
  unfold Server.generateText, internalOrSuccess.
  destruct (Server.prepareGenerate _ _ _) as [requestBody|];
    [destruct (api _)|]; eexists; cbn; repeat split; auto.
Qed.

Lemma analyzeImage_answer api requestId args :
  id (Server.analyzeImage api requestId args).1 = requestId
  /\ internalOrSuccess (Server.analyzeImage api requestId args).1
  /\ (length (Server.analyzeImage api requestId args).2 <= 1)%nat.
Proof.
  unfold Server.analyzeImage, internalOrSuccess.
  repeat match goal with
  | |- context [match ?x with _ => _ end] => destruct x
  end; cbn; repeat split; auto.
Qed.

Lemma countTokens_answer api requestId args :
  id (Server.countTokens api requestId args).1 = requestId
  /\ internalOrSuccess (Server.countTokens api requestId args).1
  /\ (length (Server.countTokens api requestId args).2 <= 1)%nat.
Proof.
  unfold Server.countTokens, internalOrSuccess.
  repeat match goal with
  | |- context [match ?x with _ => _ end] => destruct x
  end; cbn; repeat split; auto.
Qed.

Lemma embedText_answer api requestId args :
  id (Server.embedText api requestId args).1 = requestId
  /\ internalOrSuccess (Server.embedText api requestId args).1
  /\ (length (Server.embedText api requestId args).2 <= 1)%nat.
Proof.
  unfold Server.embedText, internalOrSuccess.
  repeat match goal with
  | |- context [match ?x with _ => _ end] => destruct x
  end; cbn; repeat split; auto.
Qed.








End PipelineMore.





(** ** What the server advertises and what it serves *)

Lemma is_str_of_string (s literal : string) :
  JS.is_str (Some (JStr s)) literal = String.eqb s literal.
Proof. reflexivity. Qed.

Section AdvertisedFacts.

Variable JSON_parse : string -> option json.
Variable toString : jsval -> string.

(** X20.  The tools that [tools/list] advertises are exactly the tools that
    [tools/call] routes: a call naming an advertised tool is never answered
    with code -32601, and a call naming any other string is answered with
    "Unknown tool", code -32601, without a remote call or a change of the
    conversation store. *)
Theorem X20_advertised_tools_are_routed (api : Remote)
    (conversations : gmap string (list Content)) (request : json) (tool : string) :
  toolNameOf request = Some (JStr tool) ->
  let handled := Server.handleToolCall JSON_parse toString api conversations request in
  (In tool (map tool_name getAvailableTools) ->
   forall r, In r (written handled) -> errorCode r <> Some (-32601))
  /\ (~ In tool (map tool_name getAvailableTools) ->
      written handled
      = [failure (JS.prop request "id") (-32601)
           ("Unknown tool: " +:+ toString (Some (JStr tool)))]
      /\ calls handled = [] /\ store handled = conversations).
Proof.
  intros Hname handled. subst handled.
  unfold Server.handleToolCall. fold (toolNameOf request). rewrite Hname.
  rewrite !is_str_of_string. split.
  - intros Hin r Hr.
    assert (internalOrSuccess r) as [Hcode | Hcode]; [|congruence..].
    cbn in Hin.
    destruct Hin as [<- | [<- | [<- | [<- | [<- | [<- | []]]]]]];
      cbn [String.eqb Ascii.eqb Bool.eqb written fst snd] in Hr.
    + destruct (generateText_answer JSON_parse api conversations (JS.prop request "id")
                  (JS.optprop (Some (JSOps.or (JS.prop request "params") (JObj [])))
                     "arguments")) as (r' & Hw & _ & Hcode & _).
      rewrite Hw in Hr. destruct Hr as [<- | []]. exact Hcode.
    + destruct Hr as [<- | []]. apply analyzeImage_answer.
    + destruct Hr as [<- | []]. apply countTokens_answer.
    + destruct Hr as [<- | []]. now left.
    + destruct Hr as [<- | []]. apply embedText_answer.
    + destruct Hr as [<- | []]. now left.
  - intros Hout. cbn in Hout.
    repeat match goal with
    | |- context [String.eqb tool ?literal] =>
        destruct (String.eqb_spec tool literal); [exfalso; apply Hout; subst; tauto|]
    end.
    repeat split.
Qed.

(** X21.  The resources that [resources/list] advertises are exactly the
    ones that [resources/read] serves: reading an advertised URI succeeds,
    reading any other string fails with code -32602. *)
Theorem X21_advertised_resources_are_served (request : json) (uri : string) :
  JS.optprop (JS.prop request "params") "uri" = Some (JStr uri) ->
  (In uri (map res_uri getAvailableResources) ->
   exists text,
     Server.handleResourceRead toString request
     = success (JS.prop request "id") (PResource (toString (Some (JStr uri))) text))
  /\ (~ In uri (map res_uri getAvailableResources) ->
      errorCode (Server.handleResourceRead toString request) = Some (-32602)).
Proof.
  intros Huri. unfold Server.handleResourceRead. rewrite Huri.
  rewrite !is_str_of_string. split.
  - intros Hin. cbn in Hin.
    destruct Hin as [<- | [<- | [<- | [<- | [<- | []]]]]]; eexists; reflexivity.
  - intros Hout. cbn in Hout.
    destruct (JS.truthy (Some (JStr uri))); [|reflexivity]. cbn [negb].
    repeat match goal with
    | |- context [String.eqb uri ?literal] =>
        destruct (String.eqb_spec uri literal); [exfalso; apply Hout; subst; tauto|]
    end.
    reflexivity.
Qed.

(** X22.  A [generate_text] call that gives only a prompt (1 to 10000
    characters) is sent with the defaults the tool's input schema
    advertises: model, temperature, maxTokens, topK and topP are the
    advertised defaults, JSON mode and grounding are off, and the only
    message is the sanitized prompt. *)
Theorem X22_omitted_parameters_take_advertised_defaults
    (conversations : gmap string (list Content)) (prompt : string) :
  (1 <= String.length prompt)%nat ->
  Z.of_nat (String.length prompt) <= 10000 ->
  exists request,
    Server.prepareGenerate JSON_parse conversations (Some (JObj [("prompt", JStr prompt)]))
    = Ok request
    /\ advertised "generate_text" "model" "default" = Some (JStr (rq_model request))
    /\ advertised "generate_text" "temperature" "default"
       = Some (JNum (temperature (rq_generationConfig request)))
    /\ advertised "generate_text" "maxTokens" "default"
       = Some (JNum (maxOutputTokens (rq_generationConfig request)))
    /\ advertised "generate_text" "topK" "default"
       = Some (JNum (topK (rq_generationConfig request)))
    /\ advertised "generate_text" "topP" "default"
       = Some (JNum (topP (rq_generationConfig request)))
    /\ advertised "generate_text" "grounding" "default"
       = Some (JBool (rq_googleSearch request))
    /\ (advertised "generate_text" "jsonMode" "default" = Some (JBool false)
        /\ responseMimeType (rq_generationConfig request) = None)
    /\ rq_contents request = [mkContent [removeClass controlClass prompt] RoleUser]
    /\ rq_systemInstruction request = None
    /\ rq_safetySettings request = undefined.
Proof.
  intros Hmin Hmax.
  assert (ToolSchemas.generateText JSON_parse (Some (JObj [("prompt", JStr prompt)]))
          = inl (mkGenerateTextArgs prompt None None None None None None None None None
                   None None)) as Hv.
  { unfold ToolSchemas.generateText, Zod.member, Zod.string_.
    cbn [JS.prop JS.assoc String.eqb Ascii.eqb Bool.eqb omap list_omap].
    unfold Zod.minLength. apply Nat.leb_le in Hmin. cbn [fst snd]. rewrite Hmin.
    reflexivity. }
  rewrite (prepareGenerate_validated JSON_parse conversations _ _ Hv).
  unfold Server.buildRequest.
  cbn [a_model a_prompt a_temperature a_maxTokens a_topK a_topP a_jsonMode a_jsonSchema
       a_systemInstruction JS.str_or JS.num_or Server.withJsonMode Server.systemInstructionOf].
  change (modelInfoOf GEMINI_MODELS Server.defaultModel)
    with (Some (mkModelInfo "Fast thinking model with best price/performance ratio"
                  ["thinking"; "function_calling"; "json_mode"; "grounding";
                   "system_instructions"] 1000000 (Some true))).
  cbv iota beta.
  rewrite (proj1 (sanitize_default_cases prompt) Hmax).
  eexists. split; [reflexivity|]. repeat split.
Qed.

End AdvertisedFacts.

(** X23.  The enumerations of the advertised input schemas agree with what
    the code accepts: the models advertised for [generate_text] are exactly
    the ones its validation schema lets through, and all are in the model
    table; the help topics advertised for [get_help] are exactly the
    non-empty topics that do not fall back to the text for an unknown
    topic; and the filters advertised for [list_models] are the declared
    ones. *)
Theorem X23_advertised_enumerations (requestId : jsval) (value : string) :
  (In value (advertisedEnum "generate_text" "model")
   <-> CommonSchemas.geminiModel (Some (JStr value)) = inl value)
  /\ (In value (advertisedEnum "generate_text" "model")
      <-> In value (map fst GEMINI_MODELS))
  /\ (value <> "" ->
      (In value (advertisedEnum "get_help" "topic")
       <-> Server.getHelp requestId (Some (JObj [("topic", JStr value)]))
           <> success requestId (PHelp HelpUnknownTopic)))
  /\ advertisedEnum "list_models" "filter" = declaredFilters.
Proof.
  split; [|split; [|split; [|reflexivity]]].
  - change (advertisedEnum "generate_text" "model") with (map fst GEMINI_MODELS).
    split.
    + intros Hin. unfold CommonSchemas.geminiModel, Zod.enum.
      assert (existsb (String.eqb value) (map fst GEMINI_MODELS) = true) as Hex.
      { apply existsb_exists. exists value. split; [exact Hin | apply String.eqb_refl]. }
      cbn in Hex |- *. now rewrite Hex.
    + intros Hok. unfold CommonSchemas.geminiModel in Hok.
      apply enum_parsed in Hok as [_ Hin]. exact Hin.
  - reflexivity.
  - intros Hne. unfold Server.getHelp. cbn [JS.optprop JS.prop JS.assoc].
    change (String.eqb "topic" "topic") with true. cbv iota.
    unfold JSOps.or. cbn [JS.truthy].
    destruct (String.eqb_spec value ""); [contradiction|]. cbn [negb].
    rewrite !is_str_of_string.
    change (advertisedEnum "get_help" "topic")
      with ["overview"; "tools"; "models"; "parameters"; "examples"; "quick-start"].
    split.
    + intros Hin. cbn in Hin.
      destruct Hin as [<- | [<- | [<- | [<- | [<- | [<- | []]]]]]]; discriminate.
    + intros Hknown.
      repeat match goal with
      | H : context [String.eqb value ?literal] |- _ =>
          destruct (String.eqb_spec value literal); [subst; cbn; tauto|]
      end.
      contradiction.
Qed.

Lemma X20_advertised_tools_are_routed_witness :
  let parse : string -> option json := fun _ => None in
  let show : jsval -> string := fun _ => "?" in
  let known := toolCall (JNum (inject_Z 1)) "list_models" [] in
  let unknown := toolCall (JNum (inject_Z 2)) "translate" [] in
  (forall r,
      In r (written (Server.handleToolCall parse show (replying "x") ∅ known)) ->
      errorCode r <> Some (-32601))
  /\ written (Server.handleToolCall parse show (replying "x") ∅ unknown)
     = [failure (Some (JNum (inject_Z 2))) (-32601) ("Unknown tool: " +:+ "?")].
Proof.
  intros parse show known unknown. split.
  - apply (proj1 (X20_advertised_tools_are_routed parse show (replying "x") ∅ known
                    "list_models" eq_refl)).
    cbn. tauto.
  - apply (proj2 (X20_advertised_tools_are_routed parse show (replying "x") ∅ unknown
                    "translate" eq_refl)).
    cbn. intros H. repeat (destruct H as [H | H]; [discriminate H|]). exact H.
Defined.

Lemma X21_advertised_resources_are_served_witness :
  let show : jsval -> string := fun _ => "?" in
  let known := envelope (JNum (inject_Z 1)) "resources/read" [("uri", JStr "gemini://models")] in
  let unknown := envelope (JNum (inject_Z 2)) "resources/read" [("uri", JStr "gemini://nope")] in
  (exists text,
     Server.handleResourceRead show known
     = success (Some (JNum (inject_Z 1))) (PResource "?" text))
  /\ errorCode (Server.handleResourceRead show unknown) = Some (-32602).
Proof.
  intros show known unknown. split.
  - apply (proj1 (X21_advertised_resources_are_served show known "gemini://models" eq_refl)).
    cbn. tauto.
  - apply (proj2 (X21_advertised_resources_are_served show unknown "gemini://nope" eq_refl)).
    cbn. intros H. repeat (destruct H as [H | H]; [discriminate H|]). exact H.
Defined.

Lemma X22_omitted_parameters_take_advertised_defaults_witness :
  let parse : string -> option json := fun _ => None in
  exists request,
    Server.prepareGenerate parse ∅ (Some (JObj [("prompt", JStr "hi")])) = Ok request
    /\ advertised "generate_text" "model" "default" = Some (JStr (rq_model request))
    /\ advertised "generate_text" "temperature" "default"
       = Some (JNum (temperature (rq_generationConfig request))).
Proof.
  intros parse.
  destruct (X22_omitted_parameters_take_advertised_defaults parse ∅ "hi")
    as (request & Hp & Hm & Ht & _); [vm_compute; lia | vm_compute; discriminate |].
  exists request. auto.
Defined.

Lemma X23_advertised_enumerations_witness :
  Server.getHelp (Some (JNum (inject_Z 1))) (Some (JObj [("topic", JStr "models")]))
  <> success (Some (JNum (inject_Z 1))) (PHelp HelpUnknownTopic).
Proof.
  apply (proj1 (proj2 (proj2 (X23_advertised_enumerations
                                (Some (JNum (inject_Z 1))) "models"))));
    [discriminate | cbn; tauto].
Defined.
